(** * Trivia API: the request handlers of [backend/flaskr/__init__.py]

    A shallow embedding of the Flask application: the pagination helper,
    the six route handlers and the four error handlers, over an
    in-memory model of the question store.  The CORS headers added by
    [after_request] are not part of the model.

    Conventions.
    - Python integers are [Z]; Python lists are [list]; JSON objects and
      Python dicts are [gmap]s.
    - A handler is a computation in the monad [M]: it threads the store
      and either returns a value or raises a Python exception.
      [flask.abort] raises [HTTPException], which, as in Python, is an
      ordinary exception and is caught by [except BaseException].
    - [serve] is Flask's dispatch: a returned body is a successful
      response, an [HTTPException] goes to the error handler registered
      for its code, any other exception to the handler for 500.
    - A [request] is the request as a handler sees it once
      [request.get_json()] has returned; the call itself, which can
      refuse the HTTP request, is [request_get_json], and [post_questions]
      and [post_quizzes] are the two POST handlers run on an HTTP request.
    - The store itself never fails in this model: connectivity faults and
      the like are outside it. *)

From Stdlib Require Import ZArith String Ascii List Lia DecimalString DecimalPos DecimalZ.
From stdpp Require Import base option numbers list sorting strings gmap.

Local Open Scope string_scope.
Local Open Scope Z_scope.

(** ** Python values carried by a request body *)

(** The JSON values a field may hold: null, booleans, integers, strings,
    arrays of integers, and (one level of) objects.  Floats and arrays of
    other element types are not modelled. *)
Inductive atom :=
| ANone
| ABool (b : bool)
| AInt (z : Z)
| AStr (s : string)
| AIds (l : list Z).

Inductive pyval :=
| PAtom (a : atom)
| PDict (d : gmap string atom).

Definition PNone : pyval := PAtom ANone.

(** ** Exceptions and the handler monad *)

Inductive exn :=
| HTTPException (code : Z)
| AttributeError
| TypeError
| KeyError
| IndexError
| ArgumentError
| MultipleResultsFound
| DataError.

Inductive res (A : Type) :=
| Return (a : A)
| Raise (e : exn).
Arguments Return {A} a.
Arguments Raise {A} e.

(** ** The question store *)

(** Modelled from the spec: the [Question] and [Category] models of
    [models.py] (not part of the sources at hand).  A question has an
    identifier given by the store, nullable text columns for the question,
    the answer and the category, and a nullable integer difficulty; the
    category column is text, which is why the handlers compare it with
    [str(category_id)]. *)
Record Question := mkQuestion {
  q_id : Z;
  q_question : option string;
  q_answer : option string;
  q_category : option string;
  q_difficulty : option Z
}.

Record Category := mkCategory {
  c_id : Z;
  c_type : string
}.

(** Modelled from the spec: the two tables, in storage order, and the
    next identifier the store hands out (identifiers are never reused). *)
Record store := mkStore {
  questions : list Question;
  categories : list Category;
  next_id : Z
}.

(** Modelled from the spec: [Question.format], the dictionary shown in the
    comment of [delete_question]. *)
Record formatted := mkFormatted {
  f_id : Z;
  f_question : option string;
  f_answer : option string;
  f_category : option string;
  f_difficulty : option Z
}.

Definition format (q : Question) : formatted :=
  {| f_id := q_id q; f_question := q_question q; f_answer := q_answer q;
     f_category := q_category q; f_difficulty := q_difficulty q |}.

Definition M (A : Type) : Type := store -> res A * store.

Definition M_ret {A} (a : A) : M A := fun st => (Return a, st).

Definition M_bind {A B} (k : A -> M B) (c : M A) : M B :=
  fun st =>
    match c st with
    | (Return a, st') => k a st'
    | (Raise e, st') => (Raise e, st')
    end.

#[global] Instance M_mret : MRet M := @M_ret.
#[global] Instance M_mbind : MBind M := @M_bind.

Definition raise {A} (e : exn) : M A := fun st => (Raise e, st).

(** [flask.abort(code)] *)
Definition abort {A} (code : Z) : M A := raise (HTTPException code).

(** [try: c  except BaseException: h] *)
Definition try_except {A} (c : M A) (h : M A) : M A :=
  fun st =>
    match c st with
    | (Return a, st') => (Return a, st')
    | (Raise _, st') => h st'
    end.

Definition gets {A} (f : store -> A) : M A := fun st => (Return (f st), st).

Definition modify (f : store -> store) : M unit := fun st => (Return tt, f st).

(** ** Python primitives used by the handlers *)

(** [body.get(key, None)]: [body] is what [request.get_json()] gave,
    [None] when there is no JSON object to read. *)
Definition py_get (body : option (gmap string pyval)) (key : string) : M pyval :=
  match body with
  | Some d => mret (default PNone (d !! key))
  | None => raise AttributeError
  end.

(** [v[key]] with a string key *)
Definition py_getitem (v : pyval) (key : string) : M atom :=
  match v with
  | PDict d =>
      match d !! key with
      | Some a => mret a
      | None => raise KeyError
      end
  | PAtom _ => raise TypeError
  end.

(** [len(v)] *)
Definition py_len (v : pyval) : M Z :=
  match v with
  | PDict d => mret (Z.of_nat (size d))
  | PAtom (AStr s) => mret (Z.of_nat (String.length s))
  | PAtom (AIds l) => mret (Z.of_nat (length l))
  | PAtom _ => raise TypeError
  end.

(** [a == z] for an integer literal [z] *)
Definition py_eq_int (a : atom) (z : Z) : bool :=
  match a with
  | AInt x => x =? z
  | ABool b => (if b then 1 else 0) =? z
  | _ => false
  end.

Definition str_of_Z (z : Z) : string := NilZero.string_of_int (Z.to_int z).

Fixpoint join_ids (l : list Z) : string :=
  match l with
  | [] => ""
  | [x] => str_of_Z x
  | x :: l' => str_of_Z x +:+ ", " +:+ join_ids l'
  end.

(** [str(a)] *)
Definition py_str (a : atom) : string :=
  match a with
  | ANone => "None"
  | ABool b => if b then "True" else "False"
  | AInt z => str_of_Z z
  | AStr s => s
  | AIds l => "[" +:+ join_ids l +:+ "]"
  end.

(** Truth value of an object, as tested by [if v:] *)
Definition py_truthy (v : pyval) : bool :=
  match v with
  | PAtom ANone => false
  | PAtom (ABool b) => b
  | PAtom (AInt z) => negb (z =? 0)
  | PAtom (AStr s) => negb (Nat.eqb (String.length s) 0)
  | PAtom (AIds l) => negb (Nat.eqb (length l) 0)
  | PDict d => negb (Nat.eqb (size d) 0)
  end.

(** [l[start:stop]]: both bounds are first brought into [0..len], a
    negative one counting from the end. *)
Definition adjust_index (i len : Z) : Z :=
  if i <? 0 then (if i + len <? 0 then 0 else i + len)
  else if len <=? i then len else i.

Definition py_slice {A} (l : list A) (start stop : Z) : list A :=
  let len := Z.of_nat (length l) in
  let s := adjust_index start len in
  let e := adjust_index stop len in
  if s <? e then take (Z.to_nat (e - s)) (drop (Z.to_nat s) l) else [].

(** [random.choice(l)]; [rnd] is the randomness consumed by the call. *)
Definition random_choice {A} (rnd : nat) (l : list A) : M A :=
  match l !! (rnd mod length l)%nat with
  | Some x => mret x
  | None => raise IndexError
  end.

(** ** Requests *)

(** [args_page] is the outcome of reading the [page] query argument with
    [type=int]: [None] when the argument is absent or is not an integer.
    [get_json] is the value [request.get_json()] returned: the JSON
    object of the body, or [None] when the value is [None] or is not an
    object.  The call itself is [request_get_json] below. *)
Record request := mkRequest {
  args_page : option Z;
  get_json : option (gmap string pyval)
}.

(** ** Pagination *)

Definition QUESTIONS_PER_PAGE : Z := 10.

Definition page_bounds (page : Z) : Z * Z :=
  let start := (page - 1) * QUESTIONS_PER_PAGE in
  let end_ := start + QUESTIONS_PER_PAGE in
  (start, end_).

Definition paginate_questions (r : request) (selection : list Question) : list formatted :=
  let page := default 1 (args_page r) in
  let '(start, end_) := page_bounds page in
  let questions := map format selection in
  let current_questions := py_slice questions start end_ in
  current_questions.

(** ** Queries on the store *)

(** [order_by(Question.id)] and [order_by(Category.id)] *)
Definition question_id_le (a b : Question) : Prop := q_id a <= q_id b.
Definition category_id_le (a b : Category) : Prop := c_id a <= c_id b.

#[global] Instance question_id_le_dec a b : Decision (question_id_le a b) :=
  Z_le_dec (q_id a) (q_id b).
#[global] Instance category_id_le_dec a b : Decision (category_id_le a b) :=
  Z_le_dec (c_id a) (c_id b).

Definition order_by_id (l : list Question) : list Question :=
  merge_sort question_id_le l.

Definition order_categories_by_id (l : list Category) : list Category :=
  merge_sort category_id_le l.

(** [Query.one_or_none()] *)
Definition one_or_none {A} (rows : list A) : M (option A) :=
  match rows with
  | [] => mret None
  | [x] => mret (Some x)
  | _ => raise MultipleResultsFound
  end.

(** [Question.category == s]: a NULL category matches nothing. *)
Definition category_is (s : string) (q : Question) : bool :=
  match q_category q with
  | Some c => String.eqb c s
  | None => false
  end.

(** The operators of a mapped column that take a list of values: the
    operand has to be a list, anything else is refused when the
    expression is built. *)
Definition in_ (other : pyval) : M (Z -> bool) :=
  match other with
  | PAtom (AIds l) => mret (fun x => bool_decide (x ∈ l))
  | _ => raise ArgumentError
  end.

Definition not_in (other : pyval) : M (Z -> bool) :=
  match other with
  | PAtom (AIds l) => mret (fun x => negb (bool_decide (x ∈ l)))
  | _ => raise ArgumentError
  end.

(** Attribute lookup on the column [Question.id], for the names of list
    operators: the column has [in_], [not_in] and the older spelling
    [notin_]; a name the column does not have, such as [not_in_], raises
    [AttributeError]. *)
Definition Question_id_getattr (name : string) : M (pyval -> M (Z -> bool)) :=
  if String.eqb name "in_" then mret in_
  else if String.eqb name "not_in" then mret not_in
  else if String.eqb name "notin_" then mret not_in
  else raise AttributeError.

(** Modelled from the spec: [Question.delete] removes the row. *)
Definition Question_delete (q : Question) : M unit :=
  modify (fun st =>
    {| questions := List.filter (fun x => negb (q_id x =? q_id q)) (questions st);
       categories := categories st;
       next_id := next_id st |}).

(** ** Responses *)

Inductive body :=
| CategoriesOK (categories : gmap Z string) (total_categories : nat)
| QuestionsOK (questions : list formatted) (total_questions : nat)
    (categories : gmap Z string) (current_category : option string)
| DeletedOK (deleted : Z) (questions : list formatted) (total_questions : nat)
| SearchOK (questions : list formatted) (total_questions : nat)
| CreatedOK (created : Z) (questions : list formatted) (total_questions : nat)
| CategoryQuestionsOK (questions : list formatted) (total_questions : nat)
    (current_category : string)
| QuizOK (question : option formatted) (current_category : atom).

(** What the client receives: a body with ["success": True], one of the
    application's error bodies (["success": False] with the status code
    and a message), or the framework's own page for a status code that
    has no handler here. *)
Inductive response :=
| Success (b : body)
| Failure (error : Z) (message : string)
| DefaultError (code : Z).

Definition not_found : response := Failure 404 "Not found".
Definition method_not_allowed : response := Failure 405 "Method not allowed".
Definition unprocessable : response := Failure 422 "Unprocessable".
Definition internal_server_error : response := Failure 500 "Internal server error".

Definition errorhandler (code : Z) : response :=
  if code =? 404 then not_found
  else if code =? 405 then method_not_allowed
  else if code =? 422 then unprocessable
  else if code =? 500 then internal_server_error
  else DefaultError code.

Definition serve (h : M body) (st : store) : response * store :=
  match h st with
  | (Return b, st') => (Success b, st')
  | (Raise (HTTPException code), st') => (errorhandler code, st')
  | (Raise _, st') => (internal_server_error, st')
  end.

(** ** Handlers that only read or delete *)

Definition category_dict (l : list Category) : gmap Z string :=
  foldl (fun d c => <[c_id c := c_type c]> d) ∅ l.

Definition get_categories : M body :=
  categories ← gets (fun st => order_categories_by_id (categories st));
  let category_dict := category_dict categories in
  if (size category_dict =? 0)%nat then abort 404
  else mret (CategoriesOK category_dict (size category_dict)).

Definition get_questions (r : request) : M body :=
  selection ← gets (fun st => order_by_id (questions st));
  let current_questions := paginate_questions r selection in
  list_of_categories ← gets (fun st => order_categories_by_id (categories st));
  let categories := category_dict list_of_categories in
  if (length current_questions =? 0)%nat then abort 404
  else
    all ← gets questions;
    mret (QuestionsOK current_questions (length all) categories None).

Definition delete_question (r : request) (question_id : Z) : M body :=
  try_except
    (question ← (rows ← gets (fun st =>
                   List.filter (fun q => q_id q =? question_id) (questions st));
                 one_or_none rows);
     match question with
     | None => abort 404
     | Some question =>
         Question_delete question;;
         selection ← gets (fun st => order_by_id (questions st));
         let current_questions := paginate_questions r selection in
         all ← gets questions;
         mret (DeletedOK question_id current_questions (length all))
     end)
    (abort 422).

Definition get_question_by_category (r : request) (category_id : Z) : M body :=
  category ← (rows ← gets (fun st =>
                List.filter (fun c => c_id c =? category_id) (categories st));
              one_or_none rows);
  match category with
  | None => abort 404
  | Some category =>
      try_except
        (selection ← gets (fun st =>
           List.filter (category_is (str_of_Z category_id)) (questions st));
         let current_questions := paginate_questions r selection in
         mret (CategoryQuestionsOK current_questions (length selection)
                 (c_type category)))
        (abort 404)
  end.

(** ** The quiz draw *)

(** The four branches follow the [if]/[elif] chain of the source: the
    test [category['id'] == 0 and len(previous_questions) == 0] reads the
    length only when the first comparison holds. *)
Definition get_quizzes (r : request) (rnd : nat) : M body :=
  try_except
    (let body := get_json r in
     previous_questions ← py_get body "previous_questions";
     category ← py_get body "quiz_category";
     fresh_quizzes ←
       (id1 ← py_getitem category "id";
        all_and_none_asked ←
          (if py_eq_int id1 0
           then len1 ← py_len previous_questions; mret (len1 =? 0)
           else mret false);
        if all_and_none_asked : bool then
          (* Question.query.order_by(Question.id).all() *)
          gets (fun st => order_by_id (questions st))
        else
          len2 ← py_len previous_questions;
          if len2 =? 0 then
            (* filter(Question.category == str(category['id'])) *)
            id2 ← py_getitem category "id";
            gets (fun st => List.filter (category_is (py_str id2)) (questions st))
          else
            id3 ← py_getitem category "id";
            if py_eq_int id3 0 then
              (* filter(Question.id.not_in_(previous_questions)) *)
              op ← Question_id_getattr "not_in_";
              unasked ← op previous_questions;
              gets (fun st => List.filter (fun q => unasked (q_id q)) (questions st))
            else
              (* filter(Question.category == str(category['id']),
                        Question.id.not_in(previous_questions)) *)
              id4 ← py_getitem category "id";
              op ← Question_id_getattr "not_in";
              unasked ← op previous_questions;
              gets (fun st =>
                List.filter (fun q => category_is (py_str id4) q && unasked (q_id q))
                  (questions st)));
     current_question ←
       (match fresh_quizzes with
        | [] => mret None
        | _ => q ← random_choice rnd fresh_quizzes; mret (Some (format q))
        end);
     type ← py_getitem category "type";
     mret (QuizOK current_question type))
    (abort 422).

(** ** Search and creation *)

(** What the handler leaves to the Python runtime and to the database:
    - [ilike text pattern]: the database's case-insensitive LIKE;
    - [repr_object]: the text Python gives for a dict;
    - [column_text], [column_integer]: the value a text or integer column
      holds after a write of a request value ([Some None] is NULL), or
      [None] when the database refuses the value. *)
Record backend := mkBackend {
  ilike : string -> string -> bool;
  repr_object : gmap string atom -> string;
  column_text : pyval -> option (option string);
  column_integer : pyval -> option (option Z)
}.

Section CreateAndSearch.

Context (db : backend).

(** ["%{}%".format(v)] *)
Definition format_pattern (v : pyval) : string :=
  "%" +:+ (match v with
           | PAtom a => py_str a
           | PDict d => repr_object db d
           end) +:+ "%".

(** [Question.question.ilike(pattern)]: a NULL text matches nothing. *)
Definition question_ilike (pattern : string) (q : Question) : bool :=
  match q_question q with
  | Some text => ilike db text pattern
  | None => false
  end.

(** Modelled from the spec: [Question(...)] followed by [insert()]; the
    store assigns the next identifier, or refuses the row. *)
Definition Question_insert (question answer difficulty category : pyval) : M Question :=
  fun st =>
    match column_text db question, column_text db answer,
          column_integer db difficulty, column_text db category with
    | Some q, Some a, Some d, Some c =>
        let row := mkQuestion (next_id st) q a c d in
        (Return row,
         {| questions := questions st ++ [row];
            categories := categories st;
            next_id := next_id st + 1 |})
    | _, _, _, _ => (Raise DataError, st)
    end.

Definition create_and_search_question (r : request) : M body :=
  let body := get_json r in
  new_question ← py_get body "question";
  new_answer ← py_get body "answer";
  new_difficulty ← py_get body "difficulty";
  new_category ← py_get body "category";
  searchTerm ← py_get body "searchTerm";
  try_except
    (if py_truthy searchTerm then
       let selection := fun st =>
         List.filter (question_ilike (format_pattern searchTerm))
           (order_by_id (questions st)) in
       rows ← gets selection;
       let current_questions := paginate_questions r rows in
       all ← gets selection;
       mret (SearchOK current_questions (length all))
     else
       question ← Question_insert new_question new_answer new_difficulty new_category;
       selection ← gets (fun st => order_by_id (questions st));
       let current_questions := paginate_questions r selection in
       all ← gets questions;
       mret (CreatedOK (q_id question) current_questions (length all)))
    (abort 422).

End CreateAndSearch.

(** ** The body of an HTTP request *)

(** What [request.get_json()], called with its default arguments, finds:
    a request that does not announce JSON (no body, or another content
    type), a request that announces JSON with a text that is not JSON, or
    a parsed value, kept as the object it is or [None] for [null] and for
    values that are not objects. *)
Inductive http_body :=
| NoJson
| Malformed
| Parsed (v : option (gmap string pyval)).

(** What the framework does with a request that does not announce JSON:
    early versions of Flask return [None], later ones refuse the request,
    with status 400 and then with status 415. *)
Inductive media_policy :=
| ReturnNone
| BadRequest400
| UnsupportedMedia415.

Record http_request := mkHttp {
  http_page : option Z;
  http_payload : http_body
}.

(** [request.get_json()]: a text that is not JSON is refused with
    [BadRequest]. *)
Definition request_get_json (policy : media_policy) (b : http_body)
  : M (option (gmap string pyval)) :=
  match b with
  | Parsed v => mret v
  | Malformed => abort 400
  | NoJson =>
      match policy with
      | ReturnNone => mret None
      | BadRequest400 => abort 400
      | UnsupportedMedia415 => abort 415
      end
  end.

(** [POST /questions]: the call of [get_json] on line 182 comes before
    the [try] block. *)
Definition post_questions (policy : media_policy) (db : backend) (h : http_request)
  : M body :=
  body ← request_get_json policy (http_payload h);
  create_and_search_question db (mkRequest (http_page h) body).

(** [POST /quizzes]: the call of [get_json] on line 274 is inside the
    [try] block. *)
Definition post_quizzes (policy : media_policy) (h : http_request) (rnd : nat)
  : M body :=
  try_except
    (body ← request_get_json policy (http_payload h);
     get_quizzes (mkRequest (http_page h) body) rnd)
    (abort 422).

(** ** A concrete backend and the store of the scenario *)

Definition lower (c : ascii) : ascii :=
  let n := nat_of_ascii c in
  if ((65 <=? n) && (n <=? 90))%nat then ascii_of_nat (n + 32) else c.

(** LIKE with [%] and [_], no escape character. *)
Fixpoint like_match (p : list ascii) : list ascii -> bool :=
  match p with
  | [] => fun s => match s with [] => true | _ => false end
  | c :: p' =>
      if Ascii.eqb c "%" then
        fix star (s : list ascii) : bool :=
          like_match p' s || match s with [] => false | _ :: s' => star s' end
      else if Ascii.eqb c "_" then
        fun s => match s with [] => false | _ :: s' => like_match p' s' end
      else
        fun s => match s with
                 | [] => false
                 | d :: s' => Ascii.eqb c d && like_match p' s'
                 end
  end.

Definition ascii_ilike (text pattern : string) : bool :=
  like_match (map lower (list_ascii_of_string pattern))
             (map lower (list_ascii_of_string text)).

Definition plain_text (v : pyval) : option (option string) :=
  match v with
  | PAtom ANone => Some None
  | PAtom (AStr s) => Some (Some s)
  | PAtom (AInt z) => Some (Some (str_of_Z z))
  | _ => None
  end.

Definition plain_integer (v : pyval) : option (option Z) :=
  match v with
  | PAtom ANone => Some None
  | PAtom (AInt z) => Some (Some z)
  | _ => None
  end.

(** A sample backend for the examples: LIKE without escape character,
    a fixed text for objects, and columns that take null, strings and
    integers only.  No property below depends on it. *)
Definition plain_backend : backend :=
  {| ilike := ascii_ilike;
     repr_object := fun _ => "{}";
     column_text := plain_text;
     column_integer := plain_integer |}.

(** Categories 1 "Science" and 2 "Art"; twelve questions, all in
    category 1. *)
Definition science_question (i : Z) : Question :=
  mkQuestion i (Some ("Question " +:+ str_of_Z i)) (Some "Answer") (Some "1") (Some 1).

Definition science_store : store :=
  {| questions := map science_question (seqZ 1 12);
     categories := [mkCategory 1 "Science"; mkCategory 2 "Art"];
     next_id := 13 |}.

Definition quiz_request (category : gmap string atom) (previous : list Z) : request :=
  mkRequest None
    (Some (<["previous_questions" := PAtom (AIds previous)]>
             (<["quiz_category" := PDict category]> ∅))).

Definition get_page (p : Z) : request := mkRequest (Some p) None.

(** ** Notions used to state the properties *)

(** The store after the deletion of [question_id]. *)
Definition without_question (question_id : Z) (st : store) : store :=
  {| questions := List.filter (fun x => negb (q_id x =? question_id)) (questions st);
     categories := categories st;
     next_id := next_id st |}.

Section SearchAndCreationNotions.

Context (db : backend).

(** The rows a search for [term] selects. *)
Definition search_selection (term : pyval) (st : store) : list Question :=
  List.filter (question_ilike db (format_pattern db term)) (order_by_id (questions st)).

(** The creation branch: what a request without a usable search term
    does. *)
Definition creation (r : request) (body : gmap string pyval) (st : store)
  : response * store :=
  match Question_insert db (default PNone (body !! "question"))
          (default PNone (body !! "answer"))
          (default PNone (body !! "difficulty"))
          (default PNone (body !! "category")) st with
  | (Return question, st') =>
      (Success (CreatedOK (q_id question)
                  (paginate_questions r (order_by_id (questions st')))
                  (length (questions st'))), st')
  | (Raise _, st') => (unprocessable, st')
  end.

End SearchAndCreationNotions.

(** The question handed out when [fresh] is the list to draw from. *)
Definition draw (rnd : nat) (fresh : list Question) : option formatted :=
  format <$> fresh !! (rnd mod length fresh)%nat.

(** The eligible set of the specification: the questions of the selected
    category (all of them for the selector 0) that were not asked yet. *)
Definition eligible (selector : atom) (previous : list Z) (q : Question) : bool :=
  (py_eq_int selector 0 || category_is (py_str selector) q)
  && negb (bool_decide (q_id q ∈ previous)).

(** What the four branches of the handler compute for a category object
    with identifier [selector] and a list [previous] of asked
    identifiers; [None] stands for a raised exception. *)
Definition fresh_quizzes (selector : atom) (previous : list Z) (st : store)
  : option (list Question) :=
  if py_eq_int selector 0 then
    match previous with
    | [] => Some (order_by_id (questions st))
    | _ => None
    end
  else Some (List.filter (eligible selector previous) (questions st)).

Definition science : gmap string atom :=
  <["type" := AStr "Science"]> {["id" := AInt 1]}.

Definition all_categories : gmap string atom :=
  <["type" := AStr "click"]> {["id" := AInt 0]}.

Definition search_request (page : Z) (term : string) : request :=
  mkRequest (Some page) (Some {["searchTerm" := PAtom (AStr term)]}).

(** The store keeps its identifiers apart: no two questions share one,
    and all lie below the next identifier to hand out. *)
Definition store_wf (st : store) : Prop :=
  NoDup (map q_id (questions st))
  /\ Forall (fun q => q_id q < next_id st) (questions st).

(** The pages 1 to [n] of a listing, one after the other. *)
Definition first_pages (json : option (gmap string pyval)) (n : nat)
    (selection : list Question) : list formatted :=
  concat (map (fun p => paginate_questions (mkRequest (Some p) json) selection)
            (seqZ 1 (Z.of_nat n))).

(** The identifiers on a page, in the order of the page. *)
Definition page_ids (page : list formatted) : list Z := map f_id page.

(** The request that creates a question from the four fields. *)
Definition create_request (question answer difficulty category : pyval) : request :=
  mkRequest None
    (Some (<["question" := question]>
             (<["answer" := answer]>
                (<["difficulty" := difficulty]>
                   (<["category" := category]> ∅))))).

(** One step of the loop that builds the category dictionary. *)
Definition index_step (d : gmap Z string) (c : Category) : gmap Z string :=
  <[c_id c := c_type c]> d.

(** The store after the insertion of [row]. *)
Definition with_question (row : Question) (st : store) : store :=
  {| questions := questions st ++ [row];
     categories := categories st;
     next_id := next_id st + 1 |}.

(** The row a creation request with body [body] writes under the
    identifier [id], if the database takes the four values. *)
Definition new_row (db : backend) (body : gmap string pyval) (id : Z)
  : option Question :=
  match column_text db (default PNone (body !! "question")),
        column_text db (default PNone (body !! "answer")),
        column_integer db (default PNone (body !! "difficulty")),
        column_text db (default PNone (body !! "category")) with
  | Some q, Some a, Some d, Some c => Some (mkQuestion id q a c d)
  | _, _, _, _ => None
  end.

(** A creation request and the row it writes into the scenario store. *)
Definition sample_creation : request :=
  create_request (PAtom (AStr "Q")) (PAtom (AStr "A")) (PAtom (AInt 2)) (PAtom (AInt 1)).

Definition sample_row : Question :=
  mkQuestion 13 (Some "Q") (Some "A") (Some "1") (Some 2).

(** The length the handler reads off [previous_questions], when the
    value has one. *)
Definition previous_length (previous : pyval) : option Z :=
  match previous with
  | PDict d => Some (Z.of_nat (size d))
  | PAtom (AStr s) => Some (Z.of_nat (String.length s))
  | PAtom (AIds l) => Some (Z.of_nat (length l))
  | PAtom _ => None
  end.

(** The list the handler draws from, for any value of
    [previous_questions]; [None] stands for a raised exception. *)
Definition fresh_any (selector : atom) (previous : pyval) (st : store)
  : option (list Question) :=
  match previous_length previous with
  | None => None
  | Some n =>
      if n =? 0 then
        if py_eq_int selector 0 then Some (order_by_id (questions st))
        else Some (List.filter (category_is (py_str selector)) (questions st))
      else if py_eq_int selector 0 then None
      else match previous with
           | PAtom (AIds l) =>
               Some (List.filter
                       (fun q => category_is (py_str selector) q
                                 && negb (bool_decide (q_id q ∈ l)))
                       (questions st))
           | _ => None
           end
  end.

(** The response of the quiz handler to a request with the JSON object
    [body]. *)
Definition quiz_answer (rnd : nat) (body : gmap string pyval) (st : store)
  : response :=
  match default PNone (body !! "quiz_category") with
  | PDict category =>
      match category !! "id" with
      | Some selector =>
          match fresh_any selector (default PNone (body !! "previous_questions")) st,
                category !! "type" with
          | Some pool, Some type => Success (QuizOK (draw rnd pool) type)
          | _, _ => unprocessable
          end
      | None => unprocessable
      end
  | PAtom _ => unprocessable
  end.

(** The body [body] with [previous_questions] set to the list [asked]. *)
Definition asking (asked : list Z) (body : gmap string pyval) : gmap string pyval :=
  <["previous_questions" := PAtom (AIds asked)]> body.

(** Unfolds the plumbing of the handler monad. *)
Ltac run_monad :=
  cbv beta iota delta
    [serve mbind M_mbind M_bind mret M_mret M_ret gets modify raise abort
     try_except one_or_none].

Arguments order_by_id : simpl never.
Arguments order_categories_by_id : simpl never.
Arguments str_of_Z : simpl never.
Arguments py_str : simpl never.
Arguments paginate_questions : simpl never.

(** * Properties *)

(** ** Slices and pages *)

Lemma adjust_index_nonneg (i len : Z) :
  0 <= i -> 0 <= len -> adjust_index i len = Z.min i len.
Proof.
  intros Hi Hlen. unfold adjust_index.
  destruct (Z.ltb_spec i 0); [lia|].
  destruct (Z.leb_spec len i); lia.
Qed.

Lemma adjust_index_range (i len : Z) :
  0 <= len -> 0 <= adjust_index i len <= len.
Proof.
  intros Hlen. unfold adjust_index.
  destruct (Z.ltb_spec i 0).
  - destruct (Z.ltb_spec (i + len) 0); lia.
  - destruct (Z.leb_spec len i); lia.
Qed.

(** With bounds [0 <= start <= stop] the slice is the clipped segment:
    drop [start] elements, keep at most [stop - start]. *)
Lemma py_slice_nonneg {A} (l : list A) (start stop : Z) :
  0 <= start <= stop ->
  py_slice l start stop = take (Z.to_nat (stop - start)) (drop (Z.to_nat start) l).
Proof.
  intros [H0 Hle]. unfold py_slice.
  rewrite !adjust_index_nonneg by lia.
  destruct (Z.ltb_spec (Z.min start (Z.of_nat (length l)))
                       (Z.min stop (Z.of_nat (length l)))) as [Hlt|Hge].
  - assert (Hs : Z.min start (Z.of_nat (length l)) = start) by lia.
    rewrite Hs. destruct (Z.le_gt_cases stop (Z.of_nat (length l))) as [Hin|Hout].
    + rewrite Z.min_l by lia. reflexivity.
    + rewrite Z.min_r by lia.
      rewrite !take_ge; [reflexivity | |]; rewrite length_drop; lia.
  - destruct (Z.le_gt_cases (Z.of_nat (length l)) start) as [Hout|Hin].
    + rewrite drop_ge by lia. by rewrite take_nil.
    + assert (stop = start) by lia. subst stop.
      rewrite Z.sub_diag. reflexivity.
Qed.

(** A slice whose upper bound is 0 is empty, whatever the lower bound. *)
Lemma py_slice_stop_zero {A} (l : list A) (start : Z) :
  py_slice l start 0 = [].
Proof.
  unfold py_slice.
  pose proof (adjust_index_range start (Z.of_nat (length l)) ltac:(lia)) as Hs.
  assert (He : adjust_index 0 (Z.of_nat (length l)) = 0).
  { unfold adjust_index. simpl. destruct (Z.leb_spec (Z.of_nat (length l)) 0); lia. }
  rewrite He. destruct (Z.ltb_spec (adjust_index start (Z.of_nat (length l))) 0); [lia|done].
Qed.

Lemma page_bounds_eq (page : Z) :
  page_bounds page = ((page - 1) * 10, (page - 1) * 10 + 10).
Proof. reflexivity. Qed.

Lemma paginate_questions_unfold (r : request) (selection : list Question) :
  paginate_questions r selection =
  py_slice (map format selection)
    ((default 1 (args_page r) - 1) * 10) ((default 1 (args_page r) - 1) * 10 + 10).
Proof. reflexivity. Qed.

(** C4: for a page number [P >= 1] the page is the segment of the
    formatted sequence that starts at offset [(P-1)*10] and has at most 10
    elements, clipped to the sequence: element [i] of the page is element
    [(P-1)*10 + i] of the sequence for [i < 10] and there is none beyond;
    when the offset is at or past the end the page is empty.  The function
    is total, so no error is raised. *)
Theorem paginate_questions_slice (json : option (gmap string pyval))
    (selection : list Question) (P : Z) :
  1 <= P ->
  let page := paginate_questions (mkRequest (Some P) json) selection in
  let offset := Z.to_nat ((P - 1) * 10) in
  page = take 10 (drop offset (map format selection))
  /\ (forall i : nat,
        page !! i = if decide (i < 10)%nat
                    then format <$> selection !! (offset + i)%nat else None)
  /\ length page = Nat.min 10 (length selection - offset)
  /\ (Z.of_nat (length selection) <= (P - 1) * 10 -> page = []).
Proof.
  intros HP page offset.
  assert (Hpage : page = take 10 (drop offset (map format selection))).
  { subst page offset. rewrite paginate_questions_unfold. simpl default.
    rewrite py_slice_nonneg by lia.
    replace (Z.to_nat ((P - 1) * 10 + 10 - (P - 1) * 10)) with 10%nat by lia.
    reflexivity. }
  repeat split.
  - exact Hpage.
  - intros i. rewrite Hpage. case_decide as Hi.
    + rewrite lookup_take_lt by lia. rewrite lookup_drop, list_lookup_fmap. done.
    + rewrite lookup_take_ge by lia. done.
  - rewrite Hpage, length_take, length_drop, length_map. done.
  - intros Hout. rewrite Hpage, drop_ge; [by rewrite take_nil|].
    rewrite length_map. subst offset. lia.
Qed.

Lemma paginate_questions_slice_witness :
  1 <= 2 /\
  paginate_questions (mkRequest (Some 2) None) (questions science_store)
  = take 10 (drop (Z.to_nat ((2 - 1) * 10)) (map format (questions science_store))).
Proof.
  split; [lia|].
  apply (paginate_questions_slice None (questions science_store) 2). lia.
Defined.

(** The default page is 1. *)
Lemma paginate_questions_default (json : option (gmap string pyval))
    (selection : list Question) :
  paginate_questions (mkRequest None json) selection = take 10 (map format selection).
Proof.
  rewrite paginate_questions_unfold. simpl default.
  rewrite py_slice_nonneg by lia. reflexivity.
Qed.

(** ** Listing all questions *)

Lemma get_questions_run (r : request) (st : store) :
  serve (get_questions r) st =
  (match paginate_questions r (order_by_id (questions st)) with
   | [] => not_found
   | current_questions =>
       Success (QuestionsOK current_questions (length (questions st))
                  (category_dict (order_categories_by_id (categories st))) None)
   end, st).
Proof.
  unfold get_questions. run_monad.
  destruct (paginate_questions r (order_by_id (questions st))); reflexivity.
Qed.

(** C9: with page number 0 the offsets are [start = -10] and [end = 0],
    the slice [start:0] of any list is empty, so the page is empty for
    every input sequence (no tail of the sequence wraps around), and the
    listing of all questions, which rejects an empty page, answers
    "not found". *)
Theorem paginate_questions_page_zero (json : option (gmap string pyval))
    (selection : list Question) (st : store) :
  page_bounds 0 = (-10, 0)
  /\ py_slice (map format selection) (-10) 0 = []
  /\ paginate_questions (mkRequest (Some 0) json) selection = []
  /\ serve (get_questions (mkRequest (Some 0) json)) st = (not_found, st).
Proof.
  assert (Hempty : forall sel, paginate_questions (mkRequest (Some 0) json) sel = []).
  { intros sel. rewrite paginate_questions_unfold. simpl. apply py_slice_stop_zero. }
  repeat split.
  - apply py_slice_stop_zero.
  - apply Hempty.
  - rewrite get_questions_run, Hempty. reflexivity.
Qed.

(** ** Deleting a question *)

(** The [abort(404)] for a missing question is raised inside the [try]
    block, whose [except BaseException] turns it into a 422. *)
Lemma delete_question_missing (r : request) (st : store) (question_id : Z) :
  List.filter (fun q => q_id q =? question_id) (questions st) = [] ->
  serve (delete_question r question_id) st = (unprocessable, st).
Proof.
  intros Hnone. unfold delete_question. run_monad. rewrite Hnone. reflexivity.
Qed.

Lemma delete_question_existing (r : request) (st : store) (question_id : Z)
    (q : Question) :
  List.filter (fun q => q_id q =? question_id) (questions st) = [q] ->
  let st' := without_question question_id st in
  serve (delete_question r question_id) st =
  (Success (DeletedOK question_id
              (paginate_questions r (order_by_id (questions st')))
              (length (questions st'))), st').
Proof.
  intros Hone st'. unfold delete_question, Question_delete. run_monad.
  rewrite Hone.
  assert (Hid : q_id q = question_id).
  { assert (Hin : In q (List.filter (fun q => q_id q =? question_id) (questions st)))
      by (rewrite Hone; left; reflexivity).
    apply filter_In in Hin. lia. }
  rewrite Hid. reflexivity.
Qed.

(** The deleted identifier is gone and the other rows stay. *)
Lemma without_question_spec (question_id : Z) (st : store) (q : Question) :
  In q (questions (without_question question_id st)) <->
  In q (questions st) /\ q_id q <> question_id.
Proof.
  unfold without_question. simpl. rewrite filter_In.
  destruct (Z.eqb_spec (q_id q) question_id); simpl; intuition congruence.
Qed.

(** ** Listing the questions of a category *)

Lemma get_question_by_category_unknown (r : request) (st : store) (category_id : Z) :
  List.filter (fun c => c_id c =? category_id) (categories st) = [] ->
  serve (get_question_by_category r category_id) st = (not_found, st).
Proof.
  intros Hnone. unfold get_question_by_category. run_monad.
  rewrite Hnone. reflexivity.
Qed.

(** For a category that exists the page is returned as it is, empty or
    not: this handler has no test on the page. *)
Lemma get_question_by_category_known (r : request) (st : store) (category_id : Z)
    (c : Category) :
  List.filter (fun c => c_id c =? category_id) (categories st) = [c] ->
  let selection := List.filter (category_is (str_of_Z category_id)) (questions st) in
  serve (get_question_by_category r category_id) st =
  (Success (CategoryQuestionsOK (paginate_questions r selection) (length selection)
              (c_type c)), st).
Proof.
  intros Hone selection. unfold get_question_by_category. run_monad.
  rewrite Hone. reflexivity.
Qed.

(** ** Search and creation *)

Section CreateAndSearchFacts.

Context (db : backend).

(** A body that is not a JSON object fails at the first [body.get], before
    the [try] block is entered. *)
Lemma create_and_search_question_no_body (page : option Z) (st : store) :
  create_and_search_question db (mkRequest page None) st = (Raise AttributeError, st).
Proof. reflexivity. Qed.

Lemma create_and_search_question_search (r : request) (st : store)
    (body : gmap string pyval) (term : pyval) :
  get_json r = Some body ->
  body !! "searchTerm" = Some term ->
  py_truthy term = true ->
  serve (create_and_search_question db r) st =
  (Success (SearchOK (paginate_questions r (search_selection db term st))
              (length (search_selection db term st))), st).
Proof.
  intros Hbody Hterm Htruthy. unfold create_and_search_question, py_get.
  assert (Hdef : default PNone (body !! "searchTerm") = term) by (by rewrite Hterm).
  rewrite Hbody. run_monad. rewrite Hdef, Htruthy. reflexivity.
Qed.

Lemma create_and_search_question_create (r : request) (st : store)
    (body : gmap string pyval) :
  get_json r = Some body ->
  py_truthy (default PNone (body !! "searchTerm")) = false ->
  serve (create_and_search_question db r) st = creation db r body st.
Proof.
  intros Hbody Hfalsy. unfold create_and_search_question, creation, py_get.
  rewrite Hbody. run_monad. rewrite Hfalsy.
  destruct (Question_insert db _ _ _ _ st) as [[question|e] st']; reflexivity.
Qed.

(** A creation either adds exactly one row, with a fresh identifier, or
    leaves the store as it was. *)
Lemma creation_effect (r : request) (body : gmap string pyval) (st : store) :
  (exists q page,
      creation db r body st =
      (Success (CreatedOK (q_id q) page (S (length (questions st)))),
       {| questions := questions st ++ [q]; categories := categories st;
          next_id := next_id st + 1 |})
      /\ q_id q = next_id st)
  \/ creation db r body st = (unprocessable, st).
Proof.
  unfold creation, Question_insert.
  destruct (column_text db (default PNone (body !! "question"))) as [q|]; [|by right].
  destruct (column_text db (default PNone (body !! "answer"))) as [a|]; [|by right].
  destruct (column_integer db (default PNone (body !! "difficulty"))) as [d|]; [|by right].
  destruct (column_text db (default PNone (body !! "category"))) as [c|]; [|by right].
  left. exists (mkQuestion (next_id st) q a c d). eexists. split.
  - simpl. rewrite length_app. simpl. rewrite Nat.add_1_r. reflexivity.
  - reflexivity.
Qed.

End CreateAndSearchFacts.

(** ** The quiz draw *)

Lemma random_choice_nonempty {A} (rnd : nat) (x : A) (l : list A) :
  exists y, (x :: l) !! (rnd mod length (x :: l))%nat = Some y.
Proof.
  apply lookup_lt_is_Some_2, Nat.mod_upper_bound. simpl. lia.
Qed.

Lemma eligible_category (selector : atom) (previous : list Z) (q : Question) :
  py_eq_int selector 0 = false ->
  eligible selector previous q =
  category_is (py_str selector) q && negb (bool_decide (q_id q ∈ previous)).
Proof. intros H. unfold eligible. by rewrite H. Qed.

Lemma eligible_category_first (selector : atom) (q : Question) :
  py_eq_int selector 0 = false ->
  eligible selector [] q = category_is (py_str selector) q.
Proof.
  intros H. rewrite eligible_category by done.
  rewrite bool_decide_eq_false_2 by apply not_elem_of_nil.
  apply andb_true_r.
Qed.

(** Closes a goal about the last steps of the handler, the draw from
    [fresh] and the reading of the category's type. *)
Ltac finish_draw rnd pool type :=
  destruct pool as [|x l];
  [ destruct type; reflexivity
  | unfold random_choice, draw;
    destruct (random_choice_nonempty rnd x l) as [y Hy];
    rewrite Hy; destruct type; reflexivity ].

Lemma get_quizzes_run (r : request) (rnd : nat) (st : store)
    (body : gmap string pyval) (previous : list Z) (category : gmap string atom)
    (selector : atom) :
  get_json r = Some body ->
  body !! "previous_questions" = Some (PAtom (AIds previous)) ->
  body !! "quiz_category" = Some (PDict category) ->
  category !! "id" = Some selector ->
  serve (get_quizzes r rnd) st =
  (match fresh_quizzes selector previous st, category !! "type" with
   | Some fresh, Some type => Success (QuizOK (draw rnd fresh) type)
   | _, _ => unprocessable
   end, st).
Proof.
  intros Hbody Hprev Hcat Hid.
  unfold get_quizzes, py_get. rewrite Hbody. run_monad.
  rewrite Hprev, Hcat. unfold default, from_option, id, py_getitem. run_monad.
  rewrite Hid. unfold fresh_quizzes.
  destruct (py_eq_int selector 0) eqn:Hsel; destruct previous as [|p previous'].
  - simpl. generalize (order_by_id (questions st)) as pool. intros pool.
    finish_draw rnd pool (category !! "type").
  - reflexivity.
  - simpl.
    rewrite (filter_ext _ _ (fun q => eligible_category_first selector q Hsel)).
    generalize (List.filter (category_is (py_str selector)) (questions st)) as pool.
    intros pool. finish_draw rnd pool (category !! "type").
  - simpl.
    rewrite (filter_ext _ _
               (fun q => eligible_category selector (p :: previous') q Hsel)).
    generalize (List.filter
                  (fun q => category_is (py_str selector) q
                            && negb (bool_decide (q_id q ∈ p :: previous')))
                  (questions st)) as pool.
    intros pool. finish_draw rnd pool (category !! "type").
Qed.

Lemma order_by_id_In (l : list Question) (q : Question) :
  In q (order_by_id l) <-> In q l.
Proof.
  unfold order_by_id. rewrite <- !list_elem_of_In.
  by rewrite merge_sort_Permutation.
Qed.

(** When the handler's query goes through, the list it draws from is
    exactly the eligible set. *)
Lemma fresh_quizzes_eligible (selector : atom) (previous : list Z) (st : store)
    (pool : list Question) :
  fresh_quizzes selector previous st = Some pool ->
  forall q, In q pool <-> In q (questions st) /\ eligible selector previous q = true.
Proof.
  unfold fresh_quizzes. intros Hpool q.
  destruct (py_eq_int selector 0) eqn:Hsel.
  - destruct previous; [|discriminate]. injection Hpool as <-.
    rewrite order_by_id_In. unfold eligible. rewrite Hsel.
    rewrite bool_decide_eq_false_2 by apply not_elem_of_nil. simpl. tauto.
  - injection Hpool as <-. apply filter_In.
Qed.

Lemma eligible_unasked (selector : atom) (previous : list Z) (q : Question) :
  eligible selector previous q = true -> q_id q ∉ previous.
Proof.
  unfold eligible. intros [_ H]%andb_prop.
  apply negb_true_iff, bool_decide_eq_false in H. exact H.
Qed.

Lemma draw_Some (rnd : nat) (pool : list Question) (fq : formatted) :
  draw rnd pool = Some fq -> exists q, In q pool /\ fq = format q.
Proof.
  unfold draw. intros H. apply fmap_Some in H as (q & Hq & ->).
  exists q. split; [|reflexivity].
  apply list_elem_of_In. eapply list_elem_of_lookup_2. exact Hq.
Qed.

Lemma draw_nonempty (rnd : nat) (pool : list Question) :
  pool <> [] -> exists q, In q pool /\ draw rnd pool = Some (format q).
Proof.
  intros Hne. destruct pool as [|x l]; [done|].
  destruct (random_choice_nonempty rnd x l) as [y Hy].
  exists y. split.
  - apply list_elem_of_In. eapply list_elem_of_lookup_2. exact Hy.
  - unfold draw. by rewrite Hy.
Qed.

(** The selector "all categories" together with a non-empty list of
    asked questions: the handler looks up [not_in_] on the column, which
    is not one of its operators, and the exception becomes a 422. *)
Lemma get_quizzes_all_after_first (r : request) (rnd : nat) (st : store)
    (body : gmap string pyval) (p : Z) (previous : list Z)
    (category : gmap string atom) :
  get_json r = Some body ->
  body !! "previous_questions" = Some (PAtom (AIds (p :: previous))) ->
  body !! "quiz_category" = Some (PDict category) ->
  category !! "id" = Some (AInt 0) ->
  serve (get_quizzes r rnd) st = (unprocessable, st).
Proof.
  intros Hbody Hprev Hcat Hid.
  rewrite (get_quizzes_run r rnd st body (p :: previous) category (AInt 0)) by done.
  reflexivity.
Qed.

(** A category object without usable [id] makes the request
    unprocessable. *)
Lemma get_quizzes_bad_category (r : request) (rnd : nat) (st : store)
    (body : gmap string pyval) (previous : pyval) :
  get_json r = Some body ->
  body !! "previous_questions" = Some previous ->
  match body !! "quiz_category" with
  | Some (PDict category) => category !! "id" = None
  | _ => True
  end ->
  serve (get_quizzes r rnd) st = (unprocessable, st).
Proof.
  intros Hbody Hprev Hcat.
  unfold get_quizzes, py_get. rewrite Hbody. run_monad. rewrite Hprev.
  destruct (body !! "quiz_category") as [[a|category]|]; simpl; try reflexivity.
  rewrite Hcat. reflexivity.
Qed.

(** C2: whenever the draw returns a question, that question is one of the
    store's and its identifier is not in the [previous_questions] list of
    the request, whatever the category selector is. *)
Theorem get_quizzes_never_repeats (r : request) (rnd : nat) (st st' : store)
    (body : gmap string pyval) (previous : list Z) (fq : formatted) (type : atom) :
  get_json r = Some body ->
  body !! "previous_questions" = Some (PAtom (AIds previous)) ->
  serve (get_quizzes r rnd) st = (Success (QuizOK (Some fq) type), st') ->
  (f_id fq ∉ previous) /\ (exists q, In q (questions st) /\ fq = format q).
Proof.
  intros Hbody Hprev Hrun.
  destruct (body !! "quiz_category") as [[a|category]|] eqn:Hcat.
  - rewrite (get_quizzes_bad_category r rnd st body (PAtom (AIds previous))) in Hrun;
      [discriminate|done|done|by rewrite Hcat].
  - destruct (category !! "id") as [selector|] eqn:Hid.
    + rewrite (get_quizzes_run r rnd st body previous category selector) in Hrun
        by done.
      destruct (fresh_quizzes selector previous st) as [pool|] eqn:Hpool;
        [|discriminate].
      destruct (category !! "type"); [|discriminate].
      injection Hrun as Hdraw _ _.
      apply draw_Some in Hdraw as (q & Hq & ->).
      apply (fresh_quizzes_eligible _ _ _ _ Hpool) in Hq as [Hin Hel].
      split; [exact (eligible_unasked _ _ _ Hel)|eauto].
    + rewrite (get_quizzes_bad_category r rnd st body (PAtom (AIds previous))) in Hrun;
        [discriminate|done|done|by rewrite Hcat].
  - rewrite (get_quizzes_bad_category r rnd st body (PAtom (AIds previous))) in Hrun;
      [discriminate|done|done|by rewrite Hcat].
Qed.

Lemma get_quizzes_never_repeats_witness :
  serve (get_quizzes (quiz_request science [1; 2]) 0) science_store
  = (Success (QuizOK (Some (format (science_question 3))) (AStr "Science")),
     science_store)
  /\ (3 ∉ [1; 2]).
Proof.
  assert (Hrun :
    serve (get_quizzes (quiz_request science [1; 2]) 0) science_store
    = (Success (QuizOK (Some (format (science_question 3))) (AStr "Science")),
       science_store)) by (vm_compute; reflexivity).
  split; [exact Hrun|].
  refine (proj1 (get_quizzes_never_repeats (quiz_request science [1; 2]) 0
            science_store science_store _ [1; 2] (format (science_question 3))
            (AStr "Science") eq_refl _ Hrun)).
  vm_compute. reflexivity.
Defined.

(** C1 (the code departs from it): with the selector "all categories" and
    question 1 already asked, eleven questions of the store are eligible,
    yet the handler answers "unprocessable" for every draw instead of
    handing out one of them. *)
Theorem get_quizzes_all_after_first_fails (rnd : nat) :
  length (List.filter (eligible (AInt 0) [1]) (questions science_store)) = 11%nat
  /\ serve (get_quizzes (quiz_request all_categories [1]) rnd) science_store
     = (unprocessable, science_store).
Proof.
  split; [vm_compute; reflexivity|].
  eapply get_quizzes_all_after_first; vm_compute; reflexivity.
Qed.

(** C3 (the code departs from it): with the selector "all categories" and
    all twelve questions asked, the eligible set is empty, yet the handler
    answers "unprocessable" instead of a successful response without
    question. *)
Theorem get_quizzes_all_exhausted_fails (rnd : nat) :
  List.filter (eligible (AInt 0) (seqZ 1 12)) (questions science_store) = []
  /\ serve (get_quizzes (quiz_request all_categories (seqZ 1 12)) rnd) science_store
     = (unprocessable, science_store).
Proof.
  split; [vm_compute; reflexivity|].
  eapply (get_quizzes_all_after_first _ _ _ _ 1 (seqZ 2 11)); vm_compute; reflexivity.
Qed.

Lemma quiz_request_fields (category : gmap string atom) (previous : list Z) :
  exists body,
    get_json (quiz_request category previous) = Some body
    /\ body !! "previous_questions" = Some (PAtom (AIds previous))
    /\ body !! "quiz_category" = Some (PDict category).
Proof.
  eexists. split; [reflexivity|]. split.
  - apply lookup_insert_eq.
  - rewrite lookup_insert_ne by done. apply lookup_insert_eq.
Qed.

(** No eligible question left, on the branches whose query goes through:
    the response is successful and carries no question. *)
Lemma get_quizzes_exhausted (r : request) (rnd : nat) (st : store)
    (body : gmap string pyval) (previous : list Z) (category : gmap string atom)
    (selector type : atom) :
  get_json r = Some body ->
  body !! "previous_questions" = Some (PAtom (AIds previous)) ->
  body !! "quiz_category" = Some (PDict category) ->
  category !! "id" = Some selector ->
  category !! "type" = Some type ->
  py_eq_int selector 0 = false \/ previous = [] ->
  (forall q, In q (questions st) -> eligible selector previous q = false) ->
  serve (get_quizzes r rnd) st = (Success (QuizOK None type), st).
Proof.
  intros Hbody Hprev Hcat Hid Htype Hbranch Hnone.
  rewrite (get_quizzes_run r rnd st body previous category selector) by done.
  rewrite Htype.
  destruct (fresh_quizzes selector previous st) as [pool|] eqn:Hpool.
  - destruct pool as [|x l]; [reflexivity|].
    assert (Hx : In x (x :: l)) by (left; reflexivity).
    apply (fresh_quizzes_eligible _ _ _ _ Hpool) in Hx as [Hin Hel].
    rewrite (Hnone x Hin) in Hel. discriminate.
  - unfold fresh_quizzes in Hpool.
    destruct Hbranch as [Hsel| ->].
    + rewrite Hsel in Hpool. discriminate.
    + destruct (py_eq_int selector 0); discriminate.
Qed.

Lemma eligible_category_1 (previous : list Z) (q : Question) :
  q_category q = Some "1" ->
  eligible (AInt 1) previous q = negb (bool_decide (q_id q ∈ previous)).
Proof.
  intros Hc. unfold eligible, category_is. rewrite Hc. reflexivity.
Qed.

(** C8, as the code has it: in a store whose questions are all in
    category 1, a draw with [quiz_category = {id: 1, type: label}] and no
    asked question returns a question of category 1; once all identifiers
    are in [previous_questions] the draw succeeds without question; in both
    responses [current_category] is the [label] of the request.  A category
    object without [type] is answered "unprocessable". *)
Theorem quiz_category_scenario (st : store) (label : atom) (rnd : nat)
    (previous : list Z) :
  questions st <> [] ->
  Forall (fun q => q_category q = Some "1") (questions st) ->
  Forall (fun q => q_id q ∈ previous) (questions st) ->
  let category := <["type" := label]> {["id" := AInt 1]} in
  (exists q, In q (questions st) /\ q_category q = Some "1"
     /\ serve (get_quizzes (quiz_request category []) rnd) st
        = (Success (QuizOK (Some (format q)) label), st))
  /\ serve (get_quizzes (quiz_request category previous) rnd) st
     = (Success (QuizOK None label), st)
  /\ serve (get_quizzes (quiz_request {["id" := AInt 1]} []) rnd) st
     = (unprocessable, st)
  /\ serve (get_quizzes (quiz_request {["id" := AInt 1]} previous) rnd) st
     = (unprocessable, st).
Proof.
  intros Hne Hcat1 Hall category.
  rewrite Forall_forall in Hcat1, Hall.
  assert (Hid : category !! "id" = Some (AInt 1)).
  { subst category. rewrite lookup_insert_ne by done. apply lookup_singleton_eq. }
  assert (Htype : category !! "type" = Some label)
    by (subst category; apply lookup_insert_eq).
  assert (Hid' : ({["id" := AInt 1]} : gmap string atom) !! "id" = Some (AInt 1))
    by apply lookup_singleton_eq.
  assert (Htype' : ({["id" := AInt 1]} : gmap string atom) !! "type" = None)
    by (by apply lookup_singleton_ne).
  repeat split.
  - destruct (quiz_request_fields category []) as (body & Hbody & Hprev & Hcat).
    rewrite (get_quizzes_run _ rnd st body [] category (AInt 1)) by done.
    rewrite Htype.
    change (fresh_quizzes (AInt 1) [] st)
      with (Some (List.filter (eligible (AInt 1) []) (questions st))).
    destruct (draw_nonempty rnd (List.filter (eligible (AInt 1) []) (questions st)))
      as (q & Hq & Hdraw).
    { destruct (questions st) as [|x l] eqn:Hqs; [done|].
      intros Hnil.
      assert (Hx : In x (List.filter (eligible (AInt 1) []) (x :: l))).
      { apply filter_In. split; [left; reflexivity|].
        rewrite eligible_category_1 by (apply Hcat1, list_elem_of_In; left; reflexivity).
        rewrite bool_decide_eq_false_2 by apply not_elem_of_nil. reflexivity. }
      rewrite Hnil in Hx. destruct Hx. }
    apply filter_In in Hq as [Hq _].
    exists q. rewrite Hdraw.
    repeat split; [exact Hq | by apply Hcat1, list_elem_of_In].
  - destruct (quiz_request_fields category previous) as (body & Hbody & Hprev & Hcat).
    apply (get_quizzes_exhausted _ rnd st body previous category (AInt 1) label);
      try done; [by left|].
    intros q Hq. apply list_elem_of_In in Hq.
    rewrite eligible_category_1 by (by apply Hcat1).
    rewrite bool_decide_eq_true_2 by (by apply Hall). reflexivity.
  - destruct (quiz_request_fields {["id" := AInt 1]} []) as (body & Hbody & Hprev & Hcat).
    rewrite (get_quizzes_run _ rnd st body [] {["id" := AInt 1]} (AInt 1)) by done.
    rewrite Htype'. by destruct (fresh_quizzes _ _ _).
  - destruct (quiz_request_fields {["id" := AInt 1]} previous)
      as (body & Hbody & Hprev & Hcat).
    rewrite (get_quizzes_run _ rnd st body previous {["id" := AInt 1]} (AInt 1)) by done.
    rewrite Htype'. by destruct (fresh_quizzes _ _ _).
Qed.

Lemma quiz_category_scenario_witness :
  exists q, In q (questions science_store) /\ q_category q = Some "1"
    /\ serve (get_quizzes (quiz_request science []) 0) science_store
       = (Success (QuizOK (Some (format q)) (AStr "Science")), science_store).
Proof.
  refine (proj1 (quiz_category_scenario science_store (AStr "Science") 0
                   (seqZ 1 12) _ _ _)).
  - vm_compute. discriminate.
  - apply (bool_decide_unpack _). vm_compute. exact I.
  - apply (bool_decide_unpack _). vm_compute. exact I.
Defined.

(** The claim C8 as stated fails: the request [{id: 1}] of the scenario
    has no [type] and is unprocessable, and [current_category] repeats
    the request's label, here "Art", not the store's "Science". *)
Lemma quiz_category_scenario_counterexample :
  serve (get_quizzes (quiz_request {["id" := AInt 1]} []) 0) science_store
  = (unprocessable, science_store)
  /\ serve (get_quizzes
             (quiz_request (<["type" := AStr "Art"]> {["id" := AInt 1]}) (seqZ 1 12)) 0)
       science_store
     = (Success (QuizOK None (AStr "Art")), science_store).
Proof. split; vm_compute; reflexivity. Qed.

(** ** The claims on deletion, empty pages, search terms and bodies *)

(** C6 (the code departs from it): deleting identifier 99, which names no
    question of the store, is answered "unprocessable", not "not found":
    the [abort(404)] is raised inside the [try] block and caught by its
    [except BaseException]. *)
Theorem delete_question_missing_unprocessable :
  List.filter (fun q => q_id q =? 99) (questions science_store) = []
  /\ serve (delete_question (get_page 1) 99) science_store
     = (unprocessable, science_store)
  /\ unprocessable <> not_found.
Proof.
  split; [vm_compute; reflexivity|]. split; [|discriminate].
  apply delete_question_missing. vm_compute. reflexivity.
Qed.

(** The claim C7 as stated fails: page 3 of category 1 is empty although
    the category has twelve questions, and the listing succeeds with an
    empty page. *)
Lemma empty_category_page_counterexample :
  paginate_questions (get_page 3)
    (List.filter (category_is (str_of_Z 1)) (questions science_store)) = []
  /\ serve (get_question_by_category (get_page 3) 1) science_store
     = (Success (CategoryQuestionsOK [] 12 "Science"), science_store).
Proof. split; vm_compute; reflexivity. Qed.

(** C7, as the code has it: the listing of all questions answers
    "not found" when the page is empty; the listing of a category answers
    "not found" when the identifier names no category, and for a category
    that exists an empty page is a successful empty result; a search with
    an empty page is a successful empty result as well. *)
Theorem empty_page_policy (db : backend) (r : request) (st : store) :
  (paginate_questions r (order_by_id (questions st)) = [] ->
   serve (get_questions r) st = (not_found, st))
  /\ (forall category_id,
        List.filter (fun c => c_id c =? category_id) (categories st) = [] ->
        serve (get_question_by_category r category_id) st = (not_found, st))
  /\ (forall category_id c,
        List.filter (fun c => c_id c =? category_id) (categories st) = [c] ->
        let selection :=
          List.filter (category_is (str_of_Z category_id)) (questions st) in
        paginate_questions r selection = [] ->
        serve (get_question_by_category r category_id) st
        = (Success (CategoryQuestionsOK [] (length selection) (c_type c)), st))
  /\ (forall body term,
        get_json r = Some body ->
        body !! "searchTerm" = Some term ->
        py_truthy term = true ->
        paginate_questions r (search_selection db term st) = [] ->
        serve (create_and_search_question db r) st
        = (Success (SearchOK [] (length (search_selection db term st))), st)).
Proof.
  repeat split.
  - intros Hempty. rewrite get_questions_run, Hempty. reflexivity.
  - intros category_id Hnone. by apply get_question_by_category_unknown.
  - intros category_id c Hone selection Hempty.
    rewrite (get_question_by_category_known r st category_id c Hone).
    fold selection. rewrite Hempty. reflexivity.
  - intros body term Hbody Hterm Htruthy Hempty.
    rewrite (create_and_search_question_search db r st body term) by done.
    rewrite Hempty. reflexivity.
Qed.

Lemma empty_page_policy_witness :
  serve (get_questions (search_request 3 "zebra")) science_store
  = (not_found, science_store)
  /\ serve (get_question_by_category (search_request 3 "zebra") 3) science_store
     = (not_found, science_store)
  /\ serve (get_question_by_category (search_request 3 "zebra") 1) science_store
     = (Success (CategoryQuestionsOK [] 12 "Science"), science_store)
  /\ serve (create_and_search_question plain_backend (search_request 3 "zebra"))
       science_store
     = (Success (SearchOK [] 0), science_store).
Proof.
  destruct (empty_page_policy plain_backend (search_request 3 "zebra") science_store)
    as (Hall & Hunknown & Hknown & Hsearch).
  split; [apply Hall; vm_compute; reflexivity|].
  split; [apply Hunknown; vm_compute; reflexivity|].
  split.
  - apply (Hknown 1 (mkCategory 1 "Science")); vm_compute; reflexivity.
  - apply (Hsearch {["searchTerm" := PAtom (AStr "zebra")]} (PAtom (AStr "zebra")));
      vm_compute; reflexivity.
Defined.

(** The claim C5 as stated fails: a request whose search term is the
    empty string creates a question (here a row of NULLs with identifier
    13) and returns the creation response; no search is made. *)
Lemma empty_search_term_counterexample :
  serve (create_and_search_question plain_backend
           (mkRequest None (Some {["searchTerm" := PAtom (AStr "")]})))
    science_store
  = (Success (CreatedOK 13 (take 10 (map format (questions science_store))) 13),
     {| questions := questions science_store ++ [mkQuestion 13 None None None None];
        categories := categories science_store;
        next_id := 14 |}).
Proof. vm_compute. reflexivity. Qed.

(** C5, as the code has it: a search term that is present but empty is
    falsy, so the handler takes the creation branch, as it does without a
    term: it inserts a question made of the other fields of the body and
    answers with its identifier, the requested page of the full listing
    and the new total, or answers "unprocessable" when the store refuses
    the row. *)
Theorem empty_search_term_creates (db : backend) (r : request) (st : store)
    (body : gmap string pyval) :
  get_json r = Some body ->
  body !! "searchTerm" = Some (PAtom (AStr "")) ->
  serve (create_and_search_question db r) st = creation db r body st
  /\ serve (create_and_search_question db r) st
     = serve (create_and_search_question db
                (mkRequest (args_page r) (Some (delete "searchTerm" body)))) st
  /\ ((exists q page,
         creation db r body st =
         (Success (CreatedOK (q_id q) page (S (length (questions st)))),
          {| questions := questions st ++ [q]; categories := categories st;
             next_id := next_id st + 1 |})
         /\ q_id q = next_id st)
      \/ creation db r body st = (unprocessable, st)).
Proof.
  intros Hbody Hterm.
  assert (Hrun : serve (create_and_search_question db r) st = creation db r body st).
  { apply create_and_search_question_create; [done|]. by rewrite Hterm. }
  split; [exact Hrun|]. split; [|apply creation_effect].
  rewrite Hrun.
  rewrite (create_and_search_question_create db _ st (delete "searchTerm" body));
    [|reflexivity|by rewrite lookup_delete_eq].
  unfold creation. rewrite !lookup_delete_ne by done.
  destruct r; reflexivity.
Qed.

Lemma empty_search_term_creates_witness :
  serve (create_and_search_question plain_backend
           (mkRequest None (Some {["searchTerm" := PAtom (AStr "")]})))
    science_store
  = creation plain_backend
      (mkRequest None (Some {["searchTerm" := PAtom (AStr "")]}))
      {["searchTerm" := PAtom (AStr "")]} science_store.
Proof.
  refine (proj1 (empty_search_term_creates plain_backend
                   (mkRequest None (Some {["searchTerm" := PAtom (AStr "")]}))
                   science_store {["searchTerm" := PAtom (AStr "")]} eq_refl _)).
  vm_compute. reflexivity.
Defined.

(** When [get_json] has returned [None], the first [body.get] raises
    [AttributeError] before the [try] block is entered; nothing catches
    it, and the client receives the "internal" error (500), not
    "unprocessable" (422).  The store is left as it was. *)
Lemma create_and_search_question_no_json (db : backend) (page : option Z)
    (st : store) :
  create_and_search_question db (mkRequest page None) st = (Raise AttributeError, st)
  /\ serve (create_and_search_question db (mkRequest page None)) st
     = (internal_server_error, st)
  /\ internal_server_error = Failure 500 "Internal server error"
  /\ internal_server_error <> unprocessable.
Proof.
  split; [reflexivity|]. split; [reflexivity|]. split; [reflexivity|discriminate].
Qed.

Lemma post_questions_run (policy : media_policy) (db : backend) (h : http_request)
    (st : store) :
  serve (post_questions policy db h) st =
  match request_get_json policy (http_payload h) st with
  | (Return body, st') =>
      serve (create_and_search_question db (mkRequest (http_page h) body)) st'
  | (Raise (HTTPException code), st') => (errorhandler code, st')
  | (Raise _, st') => (internal_server_error, st')
  end.
Proof.
  unfold post_questions. run_monad.
  destruct (request_get_json policy (http_payload h) st) as [[body|e] st'];
    reflexivity.
Qed.

(** The quiz handler catches a refusal of the body like any other
    exception: the answer is "unprocessable". *)
Lemma post_quizzes_refused (policy : media_policy) (h : http_request) (rnd : nat)
    (st : store) (e : exn) :
  request_get_json policy (http_payload h) st = (Raise e, st) ->
  serve (post_quizzes policy h rnd) st = (unprocessable, st).
Proof.
  intros Hrefused. unfold post_quizzes. run_monad. rewrite Hrefused. reflexivity.
Qed.

(** The claim C10 as stated fails: a body that is not parseable as JSON
    never gives a parsed body of [None]; [get_json] refuses it and the
    client receives the framework's page for status 400, not the
    "internal" error.  A request without a JSON body is refused with
    status 415 by a framework that checks the content type. *)
Lemma post_questions_unparseable_counterexample :
  serve (post_questions UnsupportedMedia415 plain_backend (mkHttp None Malformed))
    science_store
  = (DefaultError 400, science_store)
  /\ serve (post_questions UnsupportedMedia415 plain_backend (mkHttp None NoJson))
       science_store
     = (DefaultError 415, science_store)
  /\ DefaultError 400 <> internal_server_error
  /\ DefaultError 415 <> internal_server_error.
Proof. repeat split; try reflexivity; discriminate. Qed.

(** C10, as the code has it: when [get_json] returns [None] (a body that
    is JSON [null] or, with a framework that returns [None] for it, a
    request without JSON body), the first [body.get] raises
    [AttributeError] outside the [try] block and the client receives the
    "internal" error (500).  A body that is not parseable as JSON is
    refused by [get_json] itself, also outside the [try] block, with
    status 400, and a request without JSON body with status 400 or 415 by
    a framework that checks the content type.  In none of these cases is
    the answer "unprocessable" (422), and the store is left as it was. *)
Theorem post_questions_without_object (policy : media_policy) (db : backend)
    (page : option Z) (st : store) :
  create_and_search_question db (mkRequest page None) st = (Raise AttributeError, st)
  /\ serve (post_questions policy db (mkHttp page (Parsed None))) st
     = (internal_server_error, st)
  /\ serve (post_questions policy db (mkHttp page Malformed)) st
     = (DefaultError 400, st)
  /\ serve (post_questions policy db (mkHttp page NoJson)) st
     = (match policy with
        | ReturnNone => internal_server_error
        | BadRequest400 => DefaultError 400
        | UnsupportedMedia415 => DefaultError 415
        end, st)
  /\ internal_server_error = Failure 500 "Internal server error"
  /\ (forall b,
        match b with Parsed (Some _) => False | _ => True end ->
        serve (post_questions policy db (mkHttp page b)) st <> (unprocessable, st)).
Proof.
  split; [reflexivity|]. split; [reflexivity|]. split; [reflexivity|].
  split; [by destruct policy|]. split; [reflexivity|].
  intros [| |[o|]] Hb; [destruct policy| | |]; try done.
Qed.

Lemma post_questions_without_object_witness :
  serve (post_questions UnsupportedMedia415 plain_backend (mkHttp None Malformed))
    science_store
  <> (unprocessable, science_store).
Proof.
  destruct (post_questions_without_object UnsupportedMedia415 plain_backend None
              science_store) as (_ & _ & _ & _ & _ & Hnever).
  apply (Hnever Malformed). exact I.
Defined.

(** * Further properties of the handlers *)

(** ** Pages of any number *)

Lemma py_slice_segment {A} (l : list A) (start stop : Z) :
  let len := Z.of_nat (length l) in
  py_slice l start stop =
  take (Z.to_nat (adjust_index stop len - adjust_index start len))
    (drop (Z.to_nat (adjust_index start len)) l).
Proof.
  intros len. unfold py_slice. fold len.
  destruct (Z.ltb_spec (adjust_index start len) (adjust_index stop len)) as [Hlt|Hge].
  - reflexivity.
  - replace (Z.to_nat (adjust_index stop len - adjust_index start len)) with 0%nat by lia.
    reflexivity.
Qed.

Lemma adjust_index_spread (start stop len : Z) :
  0 <= len -> start <= stop ->
  adjust_index stop len - adjust_index start len <= stop - start.
Proof.
  intros Hlen Hle. unfold adjust_index.
  repeat match goal with
         | |- context [?a <? ?b] => destruct (Z.ltb_spec a b)
         | |- context [?a <=? ?b] => destruct (Z.leb_spec a b)
         end; lia.
Qed.

Lemma paginate_questions_length_le (r : request) (selection : list Question) :
  (length (paginate_questions r selection) <= 10)%nat.
Proof.
  rewrite paginate_questions_unfold, py_slice_segment, length_take.
  pose proof (adjust_index_spread ((default 1 (args_page r) - 1) * 10)
                ((default 1 (args_page r) - 1) * 10 + 10)
                (Z.of_nat (length (map format selection)))
                ltac:(lia) ltac:(lia)).
  lia.
Qed.

(** X1: Whatever the page number, also zero, negative or absent, a page has
    at most ten entries and is a run of consecutive entries of the
    formatted sequence. *)
Theorem paginate_questions_window (r : request) (selection : list Question) :
  (length (paginate_questions r selection) <= 10)%nat
  /\ exists offset,
       paginate_questions r selection
       = take (length (paginate_questions r selection))
           (drop offset (map format selection)).
Proof.
  rewrite paginate_questions_unfold.
  set (l := map format selection). set (P := default 1 (args_page r)).
  rewrite py_slice_segment.
  set (len := Z.of_nat (length l)).
  pose proof (adjust_index_spread ((P - 1) * 10) ((P - 1) * 10 + 10) len
                ltac:(lia) ltac:(lia)) as Hspread.
  split.
  - rewrite length_take. lia.
  - exists (Z.to_nat (adjust_index ((P - 1) * 10) len)).
    rewrite length_take.
    set (n := Z.to_nat _). set (tail := drop _ l).
    destruct (Nat.min_spec n (length tail)) as [[_ ->]|[Hge ->]]; [reflexivity|].
    by rewrite !take_ge by lia.
Qed.

Lemma paginate_questions_page (json : option (gmap string pyval))
    (selection : list Question) (n : nat) :
  paginate_questions (mkRequest (Some (1 + Z.of_nat n)) json) selection
  = take 10 (drop (10 * n) (map format selection)).
Proof.
  rewrite paginate_questions_unfold. simpl default.
  rewrite py_slice_nonneg by lia. f_equal; [lia|]. f_equal. lia.
Qed.

(** X2: The pages 1 to [n], put one after the other, are the first [10 * n]
    entries of the formatted sequence, in order: nothing is skipped and
    nothing comes twice; once [10 * n] reaches the length they are the
    whole sequence. *)
Theorem first_pages_cover (json : option (gmap string pyval)) (n : nat)
    (selection : list Question) :
  first_pages json n selection = take (10 * n) (map format selection)
  /\ ((length selection <= 10 * n)%nat ->
      first_pages json n selection = map format selection).
Proof.
  assert (Hcover : forall k,
             first_pages json k selection = take (10 * k) (map format selection)).
  { unfold first_pages. induction k as [|k IH].
    - simpl. by rewrite take_0.
    - rewrite seqZ_S, map_app, concat_app, IH. simpl concat.
      rewrite app_nil_r, paginate_questions_page, take_take_drop.
      f_equal. lia. }
  split; [apply Hcover|].
  intros Hlen. rewrite Hcover. apply take_ge. by rewrite length_map.
Qed.

Lemma first_pages_cover_witness :
  first_pages None 2 (questions science_store)
  = map format (questions science_store).
Proof.
  apply (first_pages_cover None 2 (questions science_store)).
  vm_compute. lia.
Defined.

(** X3: A negative page number [-k] does not fail and is not empty in
    general: the page is the run of entries between the positions
    [10 * (k + 1)] and [10 * k] counted from the end of the sequence, cut
    at the start of the sequence.  It is empty exactly when the sequence
    has at most [10 * k] entries. *)
Theorem paginate_questions_negative_page (json : option (gmap string pyval))
    (selection : list Question) (k : Z) :
  1 <= k ->
  let N := Z.of_nat (length selection) in
  let page := paginate_questions (mkRequest (Some (- k)) json) selection in
  page = take (Z.to_nat (N - 10 * k) - Z.to_nat (N - 10 * k - 10))
           (drop (Z.to_nat (N - 10 * k - 10)) (map format selection))
  /\ length page = (Z.to_nat (N - 10 * k) - Z.to_nat (N - 10 * k - 10))%nat
  /\ (page = [] <-> N <= 10 * k).
Proof.
  intros Hk N page.
  assert (Hpage :
    page = take (Z.to_nat (N - 10 * k) - Z.to_nat (N - 10 * k - 10))
             (drop (Z.to_nat (N - 10 * k - 10)) (map format selection))).
  { subst page. rewrite paginate_questions_unfold. simpl default.
    rewrite py_slice_segment. rewrite length_map. fold N.
    assert (Hs : adjust_index ((- k - 1) * 10) N = Z.of_nat (Z.to_nat (N - 10 * k - 10))).
    { unfold adjust_index.
      destruct (Z.ltb_spec ((- k - 1) * 10) 0); [|lia].
      destruct (Z.ltb_spec ((- k - 1) * 10 + N) 0); lia. }
    assert (He : adjust_index ((- k - 1) * 10 + 10) N = Z.of_nat (Z.to_nat (N - 10 * k))).
    { unfold adjust_index.
      destruct (Z.ltb_spec ((- k - 1) * 10 + 10) 0); [|lia].
      destruct (Z.ltb_spec ((- k - 1) * 10 + 10 + N) 0); lia. }
    rewrite Hs, He. rewrite Nat2Z.id. f_equal. lia. }
  assert (Hlen : length page = (Z.to_nat (N - 10 * k) - Z.to_nat (N - 10 * k - 10))%nat).
  { rewrite Hpage, length_take, length_drop, length_map. subst N. lia. }
  repeat split; [exact Hpage|exact Hlen| |].
  - intros Hnil. rewrite Hnil in Hlen. simpl in Hlen. lia.
  - intros Hshort. apply length_zero_iff_nil. rewrite Hlen. lia.
Qed.

Lemma paginate_questions_negative_page_witness :
  1 <= 1 /\
  paginate_questions (mkRequest (Some (- 1)) None) (questions science_store)
  = map format (map science_question [1; 2]).
Proof.
  split; [lia|].
  etransitivity.
  - exact (proj1 (paginate_questions_negative_page None (questions science_store) 1
                    ltac:(lia))).
  - vm_compute. reflexivity.
Defined.

(** ** The category index *)

Lemma category_dict_fold (l : list Category) :
  category_dict l = foldl index_step ∅ l.
Proof. reflexivity. Qed.

Lemma index_fold_other (l : list Category) (d : gmap Z string) (k : Z) :
  (forall c, c ∈ l -> c_id c <> k) ->
  foldl index_step d l !! k = d !! k.
Proof.
  revert d. induction l as [|c l IH]; intros d Hother; [reflexivity|].
  simpl. rewrite IH by (intros c' Hc'; apply Hother; by right).
  unfold index_step. apply lookup_insert_ne. apply Hother. by left.
Qed.

Lemma index_fold_member (l : list Category) (d : gmap Z string) (c : Category) :
  NoDup (map c_id l) -> c ∈ l ->
  foldl index_step d l !! c_id c = Some (c_type c).
Proof.
  revert d. induction l as [|c' l IH]; intros d Hnodup Hin; [by inv Hin|].
  simpl in Hnodup. apply NoDup_cons in Hnodup as [Hfresh Hnodup]. simpl.
  apply elem_of_cons in Hin as [->|Hin].
  - rewrite index_fold_other.
    + unfold index_step. apply lookup_insert_eq.
    + intros c Hc Heq. apply Hfresh. rewrite <- Heq.
      apply list_elem_of_fmap. by exists c.
  - by apply IH.
Qed.

Lemma index_fold_size (l : list Category) (d : gmap Z string) :
  NoDup (map c_id l) ->
  (forall c, c ∈ l -> d !! c_id c = None) ->
  size (foldl index_step d l) = (size d + length l)%nat.
Proof.
  revert d. induction l as [|c l IH]; intros d Hnodup Hfresh; [simpl; lia|].
  simpl in Hnodup. apply NoDup_cons in Hnodup as [Hc Hnodup]. simpl.
  rewrite IH; [| done |].
  - unfold index_step. rewrite map_size_insert_None by (apply Hfresh; by left). lia.
  - intros c' Hc'. unfold index_step. rewrite lookup_insert_ne.
    + apply Hfresh. by right.
    + intros Heq. apply Hc. rewrite Heq. apply list_elem_of_fmap. by exists c'.
Qed.

Lemma index_fold_nonempty (l : list Category) (d : gmap Z string) (c : Category) :
  foldl index_step d (c :: l) <> ∅.
Proof.
  simpl. revert d c. induction l as [|c' l IH]; intros d c.
  - simpl. unfold index_step. apply insert_non_empty.
  - simpl. apply IH.
Qed.

Lemma order_categories_by_id_perm (l : list Category) :
  order_categories_by_id l ≡ₚ l.
Proof. apply merge_sort_Permutation. Qed.

Lemma get_categories_run (st : store) :
  serve get_categories st =
  (let d := category_dict (order_categories_by_id (categories st)) in
   if (size d =? 0)%nat then not_found else Success (CategoriesOK d (size d)), st).
Proof.
  unfold get_categories. run_monad.
  destruct (size _ =? 0)%nat; reflexivity.
Qed.

(** X4: The listing of the categories answers "not found" exactly when the
    store has no category.  The store is not changed. *)
Theorem get_categories_not_found_iff (st : store) :
  serve get_categories st = (not_found, st) <-> categories st = [].
Proof.
  rewrite get_categories_run. cbv zeta. split.
  - intros Hrun.
    destruct (order_categories_by_id (categories st)) as [|c l] eqn:Hsorted.
    + apply Permutation_nil. rewrite <- Hsorted.
      apply order_categories_by_id_perm.
    + destruct (Nat.eqb_spec (size (category_dict (c :: l))) 0) as [Hzero|Hpos];
        [|discriminate].
      apply map_size_empty_iff in Hzero.
      by apply (index_fold_nonempty l ∅ c) in Hzero.
  - intros Hnone.
    rewrite Hnone. reflexivity.
Qed.

(** X5: When the categories have distinct identifiers and there is one at
    least, the listing succeeds; its dictionary maps an identifier to a
    label exactly when the store has a category with that identifier and
    label, and [total_categories] is the number of categories. *)
Theorem get_categories_index (st : store) :
  NoDup (map c_id (categories st)) ->
  categories st <> [] ->
  exists d,
    serve get_categories st = (Success (CategoriesOK d (length (categories st))), st)
    /\ forall k label, d !! k = Some label <-> mkCategory k label ∈ categories st.
Proof.
  intros Hnodup Hne.
  set (sorted := order_categories_by_id (categories st)).
  assert (Hperm : sorted ≡ₚ categories st) by apply order_categories_by_id_perm.
  assert (Hnodup' : NoDup (map c_id sorted)).
  { assert (Hids : map c_id sorted ≡ₚ map c_id (categories st))
      by (by apply Permutation_map).
    by rewrite Hids. }
  assert (Hsize : size (category_dict sorted) = length (categories st)).
  { rewrite category_dict_fold, index_fold_size by done.
    rewrite map_size_empty. simpl. by rewrite Hperm. }
  exists (category_dict sorted). split.
  - rewrite get_categories_run. cbv zeta. fold sorted. rewrite Hsize.
    destruct (categories st); [done|]. reflexivity.
  - intros k label. rewrite <- Hperm. split.
    + intros Hlookup.
      destruct (decide (Exists (fun c => c_id c = k) sorted)) as [Hex|Hnone].
      * apply Exists_exists in Hex as (c & Hc & <-).
        rewrite category_dict_fold, (index_fold_member sorted ∅ c) in Hlookup by done.
        injection Hlookup as <-. by destruct c.
      * rewrite category_dict_fold, index_fold_other in Hlookup; [done|].
        intros c Hc Heq. apply Hnone. apply Exists_exists. by exists c.
    + intros Hin.
      by rewrite category_dict_fold, (index_fold_member sorted ∅ (mkCategory k label)).
Qed.

Lemma get_categories_index_witness :
  exists d,
    serve get_categories science_store = (Success (CategoriesOK d 2), science_store)
    /\ forall k label,
         d !! k = Some label <-> mkCategory k label ∈ categories science_store.
Proof.
  apply (get_categories_index science_store).
  - apply (bool_decide_unpack _). vm_compute. exact I.
  - discriminate.
Defined.

(** ** What a listing contains *)

#[global] Instance question_id_le_trans : Transitive question_id_le.
Proof. intros a b c. unfold question_id_le. lia. Qed.

#[global] Instance question_id_le_total : Total question_id_le.
Proof. intros a b. unfold question_id_le. lia. Qed.

Lemma order_by_id_perm (l : list Question) : order_by_id l ≡ₚ l.
Proof. apply merge_sort_Permutation. Qed.

Lemma order_by_id_sorted (l : list Question) :
  StronglySorted question_id_le (order_by_id l).
Proof. apply StronglySorted_merge_sort; apply _. Qed.

Lemma order_by_id_length (l : list Question) : length (order_by_id l) = length l.
Proof. by rewrite order_by_id_perm. Qed.

Lemma filter_sorted {A} (R : relation A) (f : A -> bool) (l : list A) :
  StronglySorted R l -> StronglySorted R (List.filter f l).
Proof.
  induction 1 as [|a l Hsorted IH Hall]; simpl; [constructor|].
  destruct (f a); [|exact IH].
  constructor; [exact IH|].
  rewrite Forall_forall in Hall |- *.
  intros x Hx. apply list_elem_of_In, filter_In in Hx as [Hx _].
  apply Hall. by apply list_elem_of_In.
Qed.

Lemma filter_perm {A} (f : A -> bool) (l l' : list A) :
  l ≡ₚ l' -> List.filter f l ≡ₚ List.filter f l'.
Proof.
  induction 1 as [|x l l' _ IH|x y l|l l' l'' _ IH1 _ IH2]; simpl.
  - reflexivity.
  - destruct (f x); [by constructor|exact IH].
  - destruct (f x), (f y); try reflexivity. by constructor.
  - by etransitivity.
Qed.

Lemma paginate_questions_segment (r : request) (selection : list Question) :
  exists n k, paginate_questions r selection
              = map format (take n (drop k selection)).
Proof.
  rewrite paginate_questions_unfold, py_slice_segment.
  eexists _, _. rewrite <- (fmap_drop format), <- (fmap_take format). reflexivity.
Qed.

Lemma paginate_questions_elem (r : request) (selection : list Question)
    (fq : formatted) :
  fq ∈ paginate_questions r selection ->
  exists q, q ∈ selection /\ fq = format q.
Proof.
  destruct (paginate_questions_segment r selection) as (n & k & ->).
  intros Hin. apply list_elem_of_fmap in Hin as (q & -> & Hq).
  exists q. split; [|reflexivity].
  by apply (subseteq_drop k), (subseteq_take n).
Qed.

Lemma paginate_questions_sorted (r : request) (selection : list Question) :
  StronglySorted question_id_le selection ->
  StronglySorted Z.le (page_ids (paginate_questions r selection)).
Proof.
  intros Hsorted.
  destruct (paginate_questions_segment r selection) as (n & k & ->).
  unfold page_ids. rewrite map_map.
  apply (StronglySorted_fmap (fun q => f_id (format q)) question_id_le Z.le).
  - intros x y Hxy. exact Hxy.
  - apply (StronglySorted_app_1_l _ _ (drop n (drop k selection))).
    rewrite take_drop.
    apply (StronglySorted_app_1_r _ (take k selection)).
    by rewrite take_drop.
Qed.

(** X6: The listing of all questions has two outcomes, success and "not
    found", and never changes the store.  A successful response carries a
    non-empty page of formatted questions of the store in ascending order
    of identifier, the number of all questions as total (not the length
    of the page), the dictionary of the categories, empty if there is no
    category, and no current category. *)
Theorem get_questions_listing (r : request) (st : store) :
  serve (get_questions r) st = (not_found, st)
  \/ exists page,
       serve (get_questions r) st
       = (Success (QuestionsOK page (length (questions st))
                     (category_dict (order_categories_by_id (categories st))) None),
          st)
       /\ page <> []
       /\ StronglySorted Z.le (page_ids page)
       /\ (forall fq, fq ∈ page -> exists q, q ∈ questions st /\ fq = format q).
Proof.
  rewrite get_questions_run.
  destruct (paginate_questions r (order_by_id (questions st))) as [|fq page] eqn:Hpage;
    [by left|right].
  exists (fq :: page). split; [reflexivity|]. split; [done|]. split.
  - rewrite <- Hpage. apply paginate_questions_sorted, order_by_id_sorted.
  - intros fq' Hin. rewrite <- Hpage in Hin.
    apply paginate_questions_elem in Hin as (q & Hq & ->).
    exists q. split; [|reflexivity]. by rewrite order_by_id_perm in Hq.
Qed.

Section SearchFacts.

Context (db : backend).

(** X7: A search (a request whose search term is truthy) always succeeds and
    never changes the store.  Its total is the number of questions whose
    text matches the pattern made of the term, whatever the page; the page
    is in ascending order of identifier, and every entry of the page is a
    question of the store whose text matches. *)
Theorem search_listing (r : request) (st : store) (body : gmap string pyval)
    (term : pyval) :
  get_json r = Some body ->
  body !! "searchTerm" = Some term ->
  py_truthy term = true ->
  exists page,
    serve (create_and_search_question db r) st
    = (Success (SearchOK page
                  (length (List.filter (question_ilike db (format_pattern db term))
                             (questions st)))), st)
    /\ (length page <= 10)%nat
    /\ StronglySorted Z.le (page_ids page)
    /\ (forall fq, fq ∈ page ->
          exists q, q ∈ questions st /\ fq = format q
                    /\ question_ilike db (format_pattern db term) q = true).
Proof.
  intros Hbody Hterm Htruthy.
  exists (paginate_questions r (search_selection db term st)).
  split; [|split; [|split]].
  - rewrite (create_and_search_question_search db r st body term) by done.
    do 3 f_equal. unfold search_selection.
    apply Permutation_length, filter_perm, order_by_id_perm.
  - apply paginate_questions_length_le.
  - apply paginate_questions_sorted, filter_sorted, order_by_id_sorted.
  - intros fq Hin. apply paginate_questions_elem in Hin as (q & Hq & ->).
    unfold search_selection in Hq.
    apply list_elem_of_In, filter_In in Hq as [Hq Hmatch].
    exists q. split; [|done].
    apply list_elem_of_In in Hq. by rewrite order_by_id_perm in Hq.
Qed.

End SearchFacts.

Lemma search_listing_witness :
  exists page,
    serve (create_and_search_question plain_backend (search_request 1 "TION 1"))
      science_store
    = (Success (SearchOK page 4), science_store)
    /\ (length page <= 10)%nat.
Proof.
  destruct (search_listing plain_backend (search_request 1 "TION 1") science_store
              {["searchTerm" := PAtom (AStr "TION 1")]} (PAtom (AStr "TION 1"))
              eq_refl eq_refl eq_refl) as (page & Hrun & Hlen & _).
  exists page. split; [exact Hrun|exact Hlen].
Defined.


(** ** The listing of a category *)

Lemma get_question_by_category_ambiguous (r : request) (st : store)
    (category_id : Z) (c c' : Category) (l : list Category) :
  List.filter (fun c => c_id c =? category_id) (categories st) = c :: c' :: l ->
  serve (get_question_by_category r category_id) st = (internal_server_error, st).
Proof.
  intros Hmany. unfold get_question_by_category. run_monad.
  rewrite Hmany. reflexivity.
Qed.

(** X8: The listing of a category answers "not found" exactly when no
    category of the store has the identifier, whether or not questions
    carry that category. *)
Theorem get_question_by_category_not_found_iff (r : request) (st : store)
    (category_id : Z) :
  serve (get_question_by_category r category_id) st = (not_found, st)
  <-> Forall (fun c => c_id c <> category_id) (categories st).
Proof.
  destruct (List.filter (fun c => c_id c =? category_id) (categories st))
    as [|c [|c' l]] eqn:Hrows.
  - rewrite get_question_by_category_unknown by done.
    split; [intros _|done].
    apply Forall_forall. intros c Hc Heq.
    assert (Hin : In c (List.filter (fun c => c_id c =? category_id) (categories st))).
    { apply filter_In. split; [by apply list_elem_of_In|lia]. }
    by rewrite Hrows in Hin.
  - rewrite (get_question_by_category_known r st category_id c Hrows). cbv zeta.
    split; [discriminate|].
    intros Hnone. rewrite Forall_forall in Hnone.
    assert (Hin : In c (List.filter (fun c => c_id c =? category_id) (categories st)))
      by (rewrite Hrows; by left).
    apply filter_In in Hin as [Hin Heq].
    exfalso. apply (Hnone c); [by apply list_elem_of_In|lia].
  - rewrite (get_question_by_category_ambiguous r st category_id c c' l Hrows).
    split; [discriminate|].
    intros Hnone. rewrite Forall_forall in Hnone.
    assert (Hin : In c (List.filter (fun c => c_id c =? category_id) (categories st)))
      by (rewrite Hrows; by left).
    apply filter_In in Hin as [Hin Heq].
    exfalso. apply (Hnone c); [by apply list_elem_of_In|lia].
Qed.

(** X9: For a category that exists once, the listing succeeds and leaves the
    store as it is: the total is the number of questions of the store whose
    category is the text of the identifier, the label is the category's,
    and every entry of the page (ten at most) is a question of the store
    with that category. *)
Theorem get_question_by_category_listing (r : request) (st : store)
    (category_id : Z) (c : Category) :
  List.filter (fun c => c_id c =? category_id) (categories st) = [c] ->
  exists page,
    serve (get_question_by_category r category_id) st
    = (Success (CategoryQuestionsOK page
                  (length (List.filter (category_is (str_of_Z category_id))
                             (questions st)))
                  (c_type c)), st)
    /\ (length page <= 10)%nat
    /\ (forall fq, fq ∈ page ->
          f_category fq = Some (str_of_Z category_id)
          /\ exists q, q ∈ questions st /\ fq = format q).
Proof.
  intros Hone.
  exists (paginate_questions r
            (List.filter (category_is (str_of_Z category_id)) (questions st))).
  split; [by rewrite (get_question_by_category_known r st category_id c Hone)|].
  split; [apply paginate_questions_length_le|].
  intros fq Hin. apply paginate_questions_elem in Hin as (q & Hq & ->).
  apply list_elem_of_In, filter_In in Hq as [Hq Hcat].
  split; [|exists q; split; [by apply list_elem_of_In|reflexivity]].
  unfold category_is in Hcat. simpl.
  destruct (q_category q) as [s|]; [|discriminate].
  apply String.eqb_eq in Hcat. by rewrite Hcat.
Qed.

Lemma get_question_by_category_listing_witness :
  exists page,
    serve (get_question_by_category (get_page 2) 1) science_store
    = (Success (CategoryQuestionsOK page 12 "Science"), science_store)
    /\ (length page <= 10)%nat.
Proof.
  destruct (get_question_by_category_listing (get_page 2) science_store 1
              (mkCategory 1 "Science") eq_refl) as (page & Hrun & Hlen & _).
  exists page. split; [exact Hrun|exact Hlen].
Defined.

(** ** Deletion *)

Lemma filter_split_length {A} (f : A -> bool) (l : list A) :
  (length (List.filter f l) + length (List.filter (fun x => negb (f x)) l))%nat
  = length l.
Proof.
  induction l as [|a l IH]; [reflexivity|].
  simpl. destruct (f a); simpl; lia.
Qed.

Lemma delete_question_ambiguous (r : request) (st : store) (question_id : Z)
    (q q' : Question) (l : list Question) :
  List.filter (fun q => q_id q =? question_id) (questions st) = q :: q' :: l ->
  serve (delete_question r question_id) st = (unprocessable, st).
Proof.
  intros Hmany. unfold delete_question. run_monad. rewrite Hmany. reflexivity.
Qed.

Lemma delete_question_cases (r : request) (st : store) (question_id : Z) :
  serve (delete_question r question_id) st = (unprocessable, st)
  \/ (exists q,
        List.filter (fun q => q_id q =? question_id) (questions st) = [q]
        /\ serve (delete_question r question_id) st
           = (Success (DeletedOK question_id
                         (paginate_questions r
                            (order_by_id (questions (without_question question_id st))))
                         (length (questions (without_question question_id st)))),
              without_question question_id st)).
Proof.
  destruct (List.filter (fun q => q_id q =? question_id) (questions st))
    as [|q [|q' l]] eqn:Hrows.
  - left. by apply delete_question_missing.
  - right. exists q. split; [reflexivity|].
    by rewrite (delete_question_existing r st question_id q Hrows).
  - left. by apply (delete_question_ambiguous r st question_id q q' l).
Qed.

(** X10: A deletion has two outcomes.  Either it answers "unprocessable" and
    the store is as before, or exactly one question had the identifier and
    the response is the success response over the store without it.  It
    never answers "not found" and never surfaces an internal error. *)
Theorem delete_question_outcomes (r : request) (st : store) (question_id : Z) :
  serve (delete_question r question_id) st = (unprocessable, st)
  \/ (exists q,
        List.filter (fun q => q_id q =? question_id) (questions st) = [q]
        /\ serve (delete_question r question_id) st
           = (Success (DeletedOK question_id
                         (paginate_questions r
                            (order_by_id (questions (without_question question_id st))))
                         (length (questions (without_question question_id st)))),
              without_question question_id st)).
Proof. apply delete_question_cases. Qed.

(** X11: Deleting the one question that has the identifier: the total of the
    response and the number of questions drop by exactly one, no question
    of the new store has the identifier, every other question stays, and
    the categories and the next identifier are untouched. *)
Theorem delete_question_removes (r : request) (st : store) (question_id : Z)
    (q : Question) :
  List.filter (fun q => q_id q =? question_id) (questions st) = [q] ->
  exists page st',
    serve (delete_question r question_id) st
    = (Success (DeletedOK question_id page (length (questions st) - 1)), st')
    /\ S (length (questions st')) = length (questions st)
    /\ (forall x, x ∈ questions st' <-> x ∈ questions st /\ q_id x <> question_id)
    /\ categories st' = categories st
    /\ next_id st' = next_id st.
Proof.
  intros Hone.
  assert (Hlen : S (length (questions (without_question question_id st)))
                 = length (questions st)).
  { rewrite <- (filter_split_length (fun q => q_id q =? question_id) (questions st)).
    rewrite Hone. reflexivity. }
  eexists _, (without_question question_id st). split; [|split; [exact Hlen|]].
  - rewrite (delete_question_existing r st question_id q Hone). cbv zeta.
    do 3 f_equal. lia.
  - split; [|split; reflexivity].
    intros x. rewrite !list_elem_of_In. apply without_question_spec.
Qed.

Lemma delete_question_removes_witness :
  exists page st',
    serve (delete_question (get_page 1) 3) science_store
    = (Success (DeletedOK 3 page 11), st')
    /\ S (length (questions st')) = 12%nat.
Proof.
  destruct (delete_question_removes (get_page 1) science_store 3 (science_question 3)
              eq_refl) as (page & st' & Hrun & Hlen & _).
  exists page, st'. split; [exact Hrun|exact Hlen].
Defined.

(** ** Creation and the identifiers of the store *)

Lemma new_row_id (db : backend) (body : gmap string pyval) (id : Z) (row : Question) :
  new_row db body id = Some row -> q_id row = id.
Proof.
  unfold new_row. intros H. repeat case_match; try discriminate.
  by injection H as <-.
Qed.

Lemma creation_run (db : backend) (r : request) (body : gmap string pyval)
    (st : store) :
  creation db r body st =
  match new_row db body (next_id st) with
  | Some row =>
      (Success (CreatedOK (next_id st)
                  (paginate_questions r (order_by_id (questions st ++ [row])))
                  (S (length (questions st)))), with_question row st)
  | None => (unprocessable, st)
  end.
Proof.
  unfold creation, Question_insert, new_row.
  destruct (column_text db (default PNone (body !! "question"))) as [q|]; [|done].
  destruct (column_text db (default PNone (body !! "answer"))) as [a|]; [|done].
  destruct (column_integer db (default PNone (body !! "difficulty"))) as [d|]; [|done].
  destruct (column_text db (default PNone (body !! "category"))) as [c|]; [|done].
  simpl. rewrite length_app. simpl. rewrite Nat.add_1_r. reflexivity.
Qed.

(** Every request to the combined handler falls under one of three
    cases. *)
Lemma create_and_search_question_cases (db : backend) (r : request) (st : store) :
  serve (create_and_search_question db r) st = (internal_server_error, st)
  \/ (exists page total,
        serve (create_and_search_question db r) st = (Success (SearchOK page total), st))
  \/ (exists body, get_json r = Some body
        /\ py_truthy (default PNone (body !! "searchTerm")) = false
        /\ serve (create_and_search_question db r) st = creation db r body st).
Proof.
  destruct r as [page [body|]].
  - destruct (py_truthy (default PNone (body !! "searchTerm"))) eqn:Htruthy.
    + right. left.
      destruct (body !! "searchTerm") as [term|] eqn:Hterm; [|discriminate].
      eexists _, _.
      by apply (create_and_search_question_search db _ st body term).
    + right. right. exists body. split; [reflexivity|]. split; [exact Htruthy|].
      by apply create_and_search_question_create.
  - left. reflexivity.
Qed.

Lemma store_wf_without (question_id : Z) (st : store) :
  store_wf st -> store_wf (without_question question_id st).
Proof.
  intros [Hnodup Hbelow]. unfold store_wf, without_question. simpl. split.
  - clear Hbelow. induction (questions st) as [|q l IH]; [constructor|].
    simpl in Hnodup. apply NoDup_cons in Hnodup as [Hq Hnodup]. simpl.
    destruct (negb (q_id q =? question_id)); [|by apply IH].
    simpl. apply NoDup_cons. split; [|by apply IH].
    intros Hin. apply Hq.
    apply list_elem_of_fmap in Hin as (x & Hx & Hin).
    apply list_elem_of_fmap. exists x. split; [exact Hx|].
    apply list_elem_of_In, filter_In in Hin as [Hin _]. by apply list_elem_of_In.
  - rewrite Forall_forall in Hbelow |- *. intros x Hx.
    apply list_elem_of_In, filter_In in Hx as [Hx _].
    apply Hbelow. by apply list_elem_of_In.
Qed.

Lemma store_wf_with (row : Question) (st : store) :
  store_wf st -> q_id row = next_id st -> store_wf (with_question row st).
Proof.
  intros [Hnodup Hbelow] Hid. unfold store_wf, with_question. simpl. split.
  - rewrite map_app. simpl. apply NoDup_app. split; [exact Hnodup|].
    split; [|apply NoDup_singleton].
    intros x Hx Hrow. apply list_elem_of_singleton in Hrow. subst x.
    apply list_elem_of_fmap in Hx as (q & Hq & Hin).
    rewrite Forall_forall in Hbelow. specialize (Hbelow q Hin). lia.
  - apply Forall_app. split.
    + eapply Forall_impl; [exact Hbelow|]. simpl. intros q Hq. lia.
    + apply Forall_singleton. lia.
Qed.

(** X12: The handlers that write keep the identifiers of the store apart:
    after a deletion and after a request to the combined search and
    creation handler, successful or not, no two questions share an
    identifier and all identifiers lie below the next one to hand out. *)
Theorem store_wf_preserved (db : backend) (r : request) (question_id : Z)
    (st : store) :
  store_wf st ->
  store_wf (snd (serve (delete_question r question_id) st))
  /\ store_wf (snd (serve (create_and_search_question db r) st)).
Proof.
  intros Hwf. split.
  - destruct (delete_question_cases r st question_id) as [->|(q & _ & ->)];
      [exact Hwf|by apply store_wf_without].
  - destruct (create_and_search_question_cases db r st)
      as [->|[(page & total & ->)|(body & _ & _ & ->)]]; [exact Hwf..|].
    rewrite creation_run.
    destruct (new_row db body (next_id st)) as [row|] eqn:Hrow; [|exact Hwf].
    simpl. apply store_wf_with; [exact Hwf|]. by apply new_row_id in Hrow.
Qed.

Lemma science_store_wf : store_wf science_store.
Proof.
  split; apply (bool_decide_unpack _); vm_compute; exact I.
Defined.

Lemma store_wf_preserved_witness :
  store_wf (snd (serve (delete_question
                          (create_request (PAtom (AStr "Q")) (PAtom (AStr "A"))
                             (PAtom (AInt 2)) (PAtom (AInt 1))) 3)
                   science_store))
  /\ store_wf (snd (serve (create_and_search_question plain_backend
                             (create_request (PAtom (AStr "Q")) (PAtom (AStr "A"))
                                (PAtom (AInt 2)) (PAtom (AInt 1))))
                      science_store)).
Proof.
  apply (store_wf_preserved plain_backend). exact science_store_wf.
Defined.

Lemma NoDup_map_eq {A B} (f : A -> B) (l : list A) (x y : A) :
  NoDup (map f l) -> x ∈ l -> y ∈ l -> f x = f y -> x = y.
Proof.
  induction l as [|a l IH]; intros Hnodup Hx Hy Heq; [by inv Hx|].
  simpl in Hnodup. apply NoDup_cons in Hnodup as [Ha Hnodup].
  apply elem_of_cons in Hx as [->|Hx]; apply elem_of_cons in Hy as [->|Hy].
  - reflexivity.
  - exfalso. apply Ha. rewrite Heq. by apply list_elem_of_fmap_2.
  - exfalso. apply Ha. rewrite <- Heq. by apply list_elem_of_fmap_2.
  - by apply IH.
Qed.

Lemma order_by_id_snoc (st : store) (row : Question) :
  store_wf st -> q_id row = next_id st ->
  order_by_id (questions st ++ [row])%list = (order_by_id (questions st) ++ [row])%list.
Proof.
  intros Hwf Hid.
  destruct (store_wf_with row st Hwf Hid) as [Hnodup _]. simpl in Hnodup.
  destruct Hwf as [_ Hbelow]. rewrite Forall_forall in Hbelow.
  assert (Hperm : order_by_id (questions st ++ [row])%list
                  ≡ₚ (order_by_id (questions st) ++ [row])%list).
  { by rewrite !order_by_id_perm. }
  apply (StronglySorted_unique_strong question_id_le); [| | |exact Hperm].
  - intros x1 x2 Hx1 Hx2 H12 H21.
    apply (NoDup_map_eq q_id (questions st ++ [row])%list); [exact Hnodup| | |].
    + by rewrite order_by_id_perm in Hx1.
    + by rewrite <- (order_by_id_perm (questions st)).
    + unfold question_id_le in *. lia.
  - apply order_by_id_sorted.
  - apply StronglySorted_app_2.
    + intros x1 x2 Hx1 Hx2. apply list_elem_of_singleton in Hx2. subst x2.
      rewrite order_by_id_perm in Hx1. specialize (Hbelow x1 Hx1).
      unfold question_id_le. lia.
    + apply order_by_id_sorted.
    + repeat constructor.
Qed.

(** X13: A creation that the database takes, on a store whose identifiers are
    below the next one: the response carries the new identifier, which is
    that next identifier, and the old total plus one; in the listing by
    identifier the new question comes last, after the old listing. *)
Theorem creation_appends (db : backend) (r : request) (st : store)
    (body : gmap string pyval) (row : Question) :
  get_json r = Some body ->
  py_truthy (default PNone (body !! "searchTerm")) = false ->
  new_row db body (next_id st) = Some row ->
  store_wf st ->
  serve (create_and_search_question db r) st
  = (Success (CreatedOK (next_id st)
                (paginate_questions r (order_by_id (questions st) ++ [row])%list)
                (S (length (questions st)))), with_question row st)
  /\ order_by_id (questions (with_question row st))
     = (order_by_id (questions st) ++ [row])%list
  /\ Forall (fun q => q_id q < q_id row) (questions st).
Proof.
  intros Hbody Hfalsy Hrow Hwf.
  pose proof (new_row_id _ _ _ _ Hrow) as Hid.
  rewrite (create_and_search_question_create db r st body Hbody Hfalsy).
  rewrite creation_run, Hrow. simpl questions.
  rewrite (order_by_id_snoc st row Hwf Hid).
  split; [reflexivity|]. split; [reflexivity|].
  rewrite Hid. apply Hwf.
Qed.

Lemma creation_appends_witness :
  order_by_id (questions (with_question sample_row science_store))
  = (order_by_id (questions science_store) ++ [sample_row])%list.
Proof.
  refine (proj1 (proj2 (creation_appends plain_backend sample_creation science_store
                          _ sample_row eq_refl _ _ science_store_wf))).
  - vm_compute. reflexivity.
  - vm_compute. reflexivity.
Defined.

(** ** Creation composed with the other handlers *)








Lemma filter_none {A} (f : A -> bool) (l : list A) :
  Forall (fun x => f x = false) l -> List.filter f l = [].
Proof.
  induction 1 as [|x l Hx _ IH]; [reflexivity|]. simpl. by rewrite Hx.
Qed.

Lemma filter_all {A} (f : A -> bool) (l : list A) :
  Forall (fun x => f x = true) l -> List.filter f l = l.
Proof.
  induction 1 as [|x l Hx _ IH]; [reflexivity|]. simpl. by rewrite Hx, IH.
Qed.

(** X15: Creating a question and then deleting the identifier the creation
    reported gives back the questions of the store as they were; the
    deletion reports the old total.  Only the next identifier has moved
    on, so the identifier is not handed out again. *)
Theorem create_then_delete (db : backend) (r r' : request) (st : store)
    (body : gmap string pyval) (row : Question) :
  get_json r = Some body ->
  py_truthy (default PNone (body !! "searchTerm")) = false ->
  new_row db body (next_id st) = Some row ->
  store_wf st ->
  let st' := snd (serve (create_and_search_question db r) st) in
  serve (delete_question r' (next_id st)) st'
  = (Success (DeletedOK (next_id st)
                (paginate_questions r' (order_by_id (questions st)))
                (length (questions st))),
     {| questions := questions st; categories := categories st;
        next_id := next_id st + 1 |}).
Proof.
  intros Hbody Hfalsy Hrow [_ Hbelow] st'.
  pose proof (new_row_id _ _ _ _ Hrow) as Hid.
  assert (Hst' : st' = with_question row st).
  { subst st'. rewrite (create_and_search_question_create db r st body Hbody Hfalsy).
    by rewrite creation_run, Hrow. }
  rewrite Hst'.
  assert (Hold : Forall (fun q => (q_id q =? next_id st) = false) (questions st)).
  { eapply Forall_impl; [exact Hbelow|]. simpl. intros q Hq. lia. }
  assert (Hrows : List.filter (fun q => q_id q =? next_id st)
                    (questions (with_question row st)) = [row]).
  { simpl. rewrite List.filter_app, (filter_none _ _ Hold). simpl.
    rewrite Hid, Z.eqb_refl. reflexivity. }
  rewrite (delete_question_existing r' _ (next_id st) row Hrows). cbv zeta.
  assert (Hback : List.filter (fun x => negb (q_id x =? next_id st))
                    (questions st ++ [row])%list = questions st).
  { rewrite List.filter_app. simpl. rewrite Hid, Z.eqb_refl. simpl.
    rewrite app_nil_r. apply filter_all.
    eapply Forall_impl; [exact Hold|]. simpl. intros q ->. reflexivity. }
  unfold without_question. simpl. rewrite Hback. reflexivity.
Qed.

Lemma create_then_delete_witness :
  serve (delete_question (get_page 1) 13) (with_question sample_row science_store)
  = (Success (DeletedOK 13
                (paginate_questions (get_page 1) (order_by_id (questions science_store)))
                12),
     {| questions := questions science_store; categories := categories science_store;
        next_id := 14 |}).
Proof.
  refine (create_then_delete plain_backend sample_creation (get_page 1) science_store
            _ sample_row eq_refl _ _ science_store_wf); vm_compute; reflexivity.
Defined.

(** ** The quiz draw on arbitrary requests *)

Lemma draw_choice_run (rnd : nat) (pool : list Question) (st : store) :
  (match pool with
   | [] => mret None
   | _ :: _ => q ← random_choice rnd pool; mret (Some (format q))
   end : M (option formatted)) st = (Return (draw rnd pool), st).
Proof.
  destruct pool as [|x l]; [reflexivity|].
  unfold random_choice, draw.
  destruct (random_choice_nonempty rnd x l) as [y Hy]. rewrite Hy. reflexivity.
Qed.

Lemma get_quizzes_run_any (page : option Z) (body : gmap string pyval)
    (rnd : nat) (st : store) :
  serve (get_quizzes (mkRequest page (Some body)) rnd) st
  = (quiz_answer rnd body st, st).
Proof.
  unfold get_quizzes, py_get, quiz_answer. simpl get_json. run_monad.
  destruct (default PNone (body !! "quiz_category")) as [a|category];
    [reflexivity|].
  unfold py_getitem. run_monad.
  destruct (category !! "id") as [selector|]; [|reflexivity].
  unfold fresh_any.
  destruct (default PNone (body !! "previous_questions")) as [[| b | z | s | asked]|d];
    simpl previous_length; unfold py_len; run_monad;
    destruct (py_eq_int selector 0) eqn:Hsel; try reflexivity.
  - destruct (Z.of_nat (String.length s) =? 0).
    + generalize (order_by_id (questions st)) as pool. intros pool.
      finish_draw rnd pool (category !! "type").
    + reflexivity.
  - destruct (Z.of_nat (String.length s) =? 0).
    + generalize (List.filter (category_is (py_str selector)) (questions st)) as pool.
      intros pool. finish_draw rnd pool (category !! "type").
    + reflexivity.
  - destruct (Z.of_nat (length asked) =? 0).
    + generalize (order_by_id (questions st)) as pool. intros pool.
      finish_draw rnd pool (category !! "type").
    + reflexivity.
  - destruct (Z.of_nat (length asked) =? 0).
    + generalize (List.filter (category_is (py_str selector)) (questions st)) as pool.
      intros pool. finish_draw rnd pool (category !! "type").
    + simpl.
      generalize (List.filter
                    (fun q => category_is (py_str selector) q
                              && negb (bool_decide (q_id q ∈ asked)))
                    (questions st)) as pool.
      intros pool. finish_draw rnd pool (category !! "type").
  - destruct (Z.of_nat (size d) =? 0).
    + generalize (order_by_id (questions st)) as pool. intros pool.
      finish_draw rnd pool (category !! "type").
    + reflexivity.
  - destruct (Z.of_nat (size d) =? 0).
    + generalize (List.filter (category_is (py_str selector)) (questions st)) as pool.
      intros pool. finish_draw rnd pool (category !! "type").
    + reflexivity.
Qed.

(** X16: The quiz handler has two outcomes, a successful response and
    "unprocessable", whatever the request; it never answers "not found",
    never surfaces an internal error, and never changes the store. *)
Theorem get_quizzes_outcomes (r : request) (rnd : nat) (st : store) :
  serve (get_quizzes r rnd) st = (unprocessable, st)
  \/ exists question type,
       serve (get_quizzes r rnd) st = (Success (QuizOK question type), st).
Proof.
  destruct r as [page [body|]]; [|by left].
  rewrite get_quizzes_run_any. unfold quiz_answer.
  destruct (default PNone (body !! "quiz_category")) as [a|category]; [by left|].
  destruct (category !! "id") as [selector|]; [|by left].
  destruct (fresh_any selector _ st) as [pool|]; [|by left].
  destruct (category !! "type") as [type|]; [|by left].
  right. by eexists _, _.
Qed.

(** X17: Requests the quiz handler refuses as "unprocessable": no JSON object
    as body; a [previous_questions] that is absent, null, a boolean, a
    number, a non-empty string or a non-empty object; a [quiz_category]
    that is not an object or lacks [id] or [type]. *)
Theorem get_quizzes_malformed (r : request) (rnd : nat) (st : store) :
  match get_json r with
  | None => True
  | Some body =>
      match default PNone (body !! "previous_questions") with
      | PAtom (AIds _) => False
      | PAtom (AStr s) => s <> ""
      | PDict d => d <> ∅
      | PAtom _ => True
      end
      \/ match default PNone (body !! "quiz_category") with
         | PDict category => category !! "id" = None \/ category !! "type" = None
         | PAtom _ => True
         end
  end ->
  serve (get_quizzes r rnd) st = (unprocessable, st).
Proof.
  destruct r as [page [body|]]; simpl get_json; [|reflexivity].
  rewrite get_quizzes_run_any. unfold quiz_answer. intros Hbad. f_equal.
  destruct (default PNone (body !! "quiz_category")) as [a|category]; [reflexivity|].
  destruct (category !! "id") as [selector|] eqn:Hid; [|reflexivity].
  destruct Hbad as [Hprev|[Hnoid|Hnotype]]; [| discriminate |].
  - assert (Hnone : fresh_any selector (default PNone (body !! "previous_questions")) st
                    = None).
    { unfold fresh_any.
      destruct (default PNone (body !! "previous_questions"))
        as [[| b | z | s | asked]|d]; simpl; try reflexivity; try done.
      - destruct s; [done|]. simpl. by destruct (py_eq_int selector 0).
      - apply map_size_non_empty_iff in Hprev.
        destruct (Z.eqb_spec (Z.of_nat (size d)) 0); [lia|].
        by destruct (py_eq_int selector 0). }
    by rewrite Hnone.
  - rewrite Hnotype. by destruct (fresh_any _ _ _).
Qed.

Lemma get_quizzes_malformed_witness :
  serve (get_quizzes (mkRequest None (Some {["quiz_category" := PDict science]})) 0)
    science_store
  = (unprocessable, science_store).
Proof.
  apply (get_quizzes_malformed
           (mkRequest None (Some {["quiz_category" := PDict science]})) 0 science_store).
  left. vm_compute. exact I.
Defined.

(** X18: An empty string and an empty object as [previous_questions] pass for
    an empty list: the answer is the one for [previous_questions = []]. *)
Theorem get_quizzes_empty_previous (page : option Z) (body : gmap string pyval)
    (rnd : nat) (st : store) :
  let ask previous :=
    serve (get_quizzes
             (mkRequest page (Some (<["previous_questions" := previous]> body))) rnd) st in
  ask (PAtom (AStr "")) = ask (PAtom (AIds []))
  /\ ask (PDict ∅) = ask (PAtom (AIds [])).
Proof.
  cbv beta zeta. rewrite !get_quizzes_run_any. unfold quiz_answer.
  assert (Hcat : forall v : pyval,
             <["previous_questions" := v]> body !! "quiz_category"
             = body !! "quiz_category") by (intros v; by apply lookup_insert_ne).
  assert (Hprev : forall v : pyval,
             <["previous_questions" := v]> body !! "previous_questions" = Some v)
    by (intros v; apply lookup_insert_eq).
  rewrite !Hcat, !Hprev. split; reflexivity.
Qed.

(** X19: With a category selector other than 0, a question the draw returns
    is a question of the store whose category is the text of the
    selector. *)
Theorem get_quizzes_category_only (r : request) (rnd : nat) (st st' : store)
    (body : gmap string pyval) (category : gmap string atom) (selector type : atom)
    (fq : formatted) :
  get_json r = Some body ->
  body !! "quiz_category" = Some (PDict category) ->
  category !! "id" = Some selector ->
  py_eq_int selector 0 = false ->
  serve (get_quizzes r rnd) st = (Success (QuizOK (Some fq) type), st') ->
  f_category fq = Some (py_str selector)
  /\ exists q, q ∈ questions st /\ fq = format q.
Proof.
  intros Hbody Hcat Hid Hsel Hrun.
  destruct r as [page json]. simpl in Hbody. subst json.
  rewrite get_quizzes_run_any in Hrun. unfold quiz_answer in Hrun.
  rewrite Hcat in Hrun. simpl in Hrun. rewrite Hid in Hrun.
  destruct (fresh_any selector _ st) as [pool|] eqn:Hpool; [|discriminate].
  destruct (category !! "type"); [|discriminate].
  injection Hrun as Hdraw _ _.
  apply draw_Some in Hdraw as (q & Hq & ->).
  assert (Hin : In q (List.filter (category_is (py_str selector)) (questions st))).
  { unfold fresh_any in Hpool. rewrite Hsel in Hpool.
    destruct (previous_length _) as [n|]; [|discriminate].
    destruct (n =? 0).
    - by injection Hpool as <-.
    - destruct (default PNone (body !! "previous_questions")) as [[| | | |asked]|];
        try discriminate.
      injection Hpool as <-. apply filter_In in Hq as [Hq Hboth].
      apply andb_prop in Hboth as [Hc _]. by apply filter_In. }
  apply filter_In in Hin as [Hin Hc]. split.
  - unfold category_is in Hc. simpl.
    destruct (q_category q) as [s|]; [|discriminate].
    apply String.eqb_eq in Hc. by rewrite Hc.
  - exists q. split; [by apply list_elem_of_In|reflexivity].
Qed.

Lemma get_quizzes_category_only_witness :
  f_category (format (science_question 3)) = Some (py_str (AInt 1)).
Proof.
  refine (proj1 (get_quizzes_category_only (quiz_request science [1; 2]) 0
                   science_store science_store _ science (AInt 1) (AStr "Science")
                   (format (science_question 3)) eq_refl _ _ _ _));
    vm_compute; reflexivity.
Defined.

(** ** A quiz session *)

(** X20: Every eligible question can be drawn: on the branches whose query
    goes through (a category selector, or nothing asked yet), for each
    question of the eligible set there is an outcome of the random choice
    for which the handler returns that question. *)
Theorem get_quizzes_reaches_every_eligible (page : option Z)
    (body : gmap string pyval) (st : store) (previous : list Z)
    (category : gmap string atom) (selector type : atom) (q : Question) :
  body !! "previous_questions" = Some (PAtom (AIds previous)) ->
  body !! "quiz_category" = Some (PDict category) ->
  category !! "id" = Some selector ->
  category !! "type" = Some type ->
  py_eq_int selector 0 = false \/ previous = [] ->
  q ∈ questions st ->
  eligible selector previous q = true ->
  exists rnd,
    serve (get_quizzes (mkRequest page (Some body)) rnd) st
    = (Success (QuizOK (Some (format q)) type), st).
Proof.
  intros Hprev Hcat Hid Htype Hbranch Hq Hel.
  assert (Hpool : exists pool, fresh_quizzes selector previous st = Some pool).
  { unfold fresh_quizzes. destruct Hbranch as [->| ->]; [by eexists|].
    destruct (py_eq_int selector 0); by eexists. }
  destruct Hpool as [pool Hpool].
  assert (Hin : q ∈ pool).
  { apply list_elem_of_In, (fresh_quizzes_eligible _ _ _ _ Hpool).
    split; [by apply list_elem_of_In|exact Hel]. }
  apply list_elem_of_lookup in Hin as [i Hi].
  exists i.
  rewrite (get_quizzes_run _ i st body previous category selector) by done.
  rewrite Hpool, Htype. unfold draw.
  rewrite Nat.mod_small by (by eapply lookup_lt_Some).
  by rewrite Hi.
Qed.

Lemma get_quizzes_reaches_every_eligible_witness :
  exists rnd,
    serve (get_quizzes (quiz_request science [1; 2]) rnd) science_store
    = (Success (QuizOK (Some (format (science_question 7))) (AStr "Science")),
       science_store).
Proof.
  apply (get_quizzes_reaches_every_eligible None _ science_store [1; 2] science
           (AInt 1) (AStr "Science") (science_question 7)).
  - vm_compute. reflexivity.
  - vm_compute. reflexivity.
  - vm_compute. reflexivity.
  - vm_compute. reflexivity.
  - left. reflexivity.
  - apply (list_elem_of_lookup_2 _ 6%nat). reflexivity.
  - vm_compute. reflexivity.
Defined.

Lemma eligible_snoc (selector : atom) (previous : list Z) (i : Z) (x : Question) :
  eligible selector (previous ++ [i]) x
  = eligible selector previous x && negb (q_id x =? i).
Proof.
  unfold eligible. rewrite <- andb_assoc. f_equal.
  rewrite <- negb_orb. f_equal.
  destruct (Z.eqb_spec (q_id x) i) as [Heq|Hne].
  - rewrite orb_true_r. apply bool_decide_eq_true_2.
    apply elem_of_app. right. by apply list_elem_of_singleton.
  - rewrite orb_false_r. apply bool_decide_ext.
    rewrite elem_of_app, list_elem_of_singleton. tauto.
Qed.

Lemma filter_remove_one (f : Question -> bool) (qs : list Question) (q : Question) :
  NoDup (map q_id qs) -> q ∈ qs -> f q = true ->
  S (length (List.filter (fun x => f x && negb (q_id x =? q_id q)) qs))
  = length (List.filter f qs).
Proof.
  induction qs as [|a qs IH]; intros Hnodup Hq Hf; [by inv Hq|].
  simpl in Hnodup. apply NoDup_cons in Hnodup as [Ha Hnodup].
  apply elem_of_cons in Hq as [->|Hq].
  - simpl. rewrite Hf, Z.eqb_refl. simpl. f_equal. f_equal.
    apply filter_ext_in. intros x Hx.
    destruct (Z.eqb_spec (q_id x) (q_id a)) as [Heq|Hne]; [|apply andb_true_r].
    exfalso. apply Ha. rewrite <- Heq. by apply list_elem_of_fmap_2, list_elem_of_In.
  - simpl.
    assert (Hne : (q_id a =? q_id q) = false).
    { apply Z.eqb_neq. intros Heq. apply Ha. rewrite Heq.
      by apply list_elem_of_fmap_2. }
    rewrite Hne, andb_true_r.
    destruct (f a); simpl; [f_equal|]; by apply IH.
Qed.

(** X21: Each draw uses up one question: in a store with distinct
    identifiers and with a category selector other than 0, after a draw
    returned a question, the request that adds its identifier to
    [previous_questions] is answered from an eligible list that is exactly
    one shorter, and the answer carries no question once that list is
    empty. *)
Theorem get_quizzes_progress (page page' : option Z) (body : gmap string pyval)
    (rnd : nat) (st st' : store) (previous : list Z) (category : gmap string atom)
    (selector type type' : atom) (fq : formatted) :
  store_wf st ->
  body !! "previous_questions" = Some (PAtom (AIds previous)) ->
  body !! "quiz_category" = Some (PDict category) ->
  category !! "id" = Some selector ->
  category !! "type" = Some type ->
  py_eq_int selector 0 = false ->
  serve (get_quizzes (mkRequest page (Some body)) rnd) st
  = (Success (QuizOK (Some fq) type'), st') ->
  let pool := List.filter (eligible selector previous) (questions st) in
  let pool' := List.filter (eligible selector (previous ++ [f_id fq])) (questions st) in
  S (length pool') = length pool
  /\ (forall rnd',
        serve (get_quizzes
                 (mkRequest page' (Some (asking (previous ++ [f_id fq]) body))) rnd') st
        = (Success (QuizOK (draw rnd' pool') type), st))
  /\ (pool' = [] -> forall rnd', draw rnd' pool' = None).
Proof.
  intros [Hnodup _] Hprev Hcat Hid Htype Hsel Hrun pool pool'.
  assert (Hfresh : forall asked, fresh_quizzes selector asked st
                     = Some (List.filter (eligible selector asked) (questions st))).
  { intros asked. unfold fresh_quizzes. by rewrite Hsel. }
  rewrite (get_quizzes_run _ rnd st body previous category selector) in Hrun by done.
  rewrite Hfresh, Htype in Hrun. injection Hrun as Hdraw _ _.
  apply draw_Some in Hdraw as (q & Hq & ->).
  apply filter_In in Hq as [Hq Hel]. apply list_elem_of_In in Hq.
  split; [|split].
  - subst pool pool'. simpl f_id.
    rewrite (filter_ext _ _ (eligible_snoc selector previous (q_id q))).
    by apply filter_remove_one.
  - intros rnd'.
    rewrite (get_quizzes_run _ rnd' st (asking (previous ++ [f_id (format q)]) body)
               (previous ++ [f_id (format q)]) category selector);
      [by rewrite Hfresh, Htype|reflexivity|apply lookup_insert_eq| |exact Hid].
    unfold asking. by rewrite lookup_insert_ne.
  - intros -> rnd'. reflexivity.
Qed.

Lemma get_quizzes_progress_witness :
  S (length (List.filter (eligible (AInt 1) ([1; 2] ++ [3])) (questions science_store)))
  = length (List.filter (eligible (AInt 1) [1; 2]) (questions science_store)).
Proof.
  refine (proj1 (get_quizzes_progress None None _ 0 science_store science_store
                   [1; 2] science (AInt 1) (AStr "Science") (AStr "Science")
                   (format (science_question 3)) science_store_wf
                   _ _ _ _ _ _)); try (vm_compute; reflexivity).
  instantiate (1 := <["previous_questions" := PAtom (AIds [1; 2])]>
                      (<["quiz_category" := PDict science]> ∅)).
  all: vm_compute; reflexivity.
Defined.

(** ** Search or creation *)

(** X22: A request with a JSON object as body is a search exactly when its
    search term is truthy.  A search succeeds and leaves the store as it
    is.  Otherwise (term absent, null, empty, zero or false) the request
    is a creation, which either commits the whole row and reports the new
    identifier and the new total, or answers "unprocessable" and leaves
    the store as it is; it never answers "not found" and never surfaces an
    internal error. *)
Theorem create_and_search_question_dispatch (db : backend) (r : request)
    (st : store) (body : gmap string pyval) :
  get_json r = Some body ->
  let term := default PNone (body !! "searchTerm") in
  (py_truthy term = true ->
   exists page total,
     serve (create_and_search_question db r) st = (Success (SearchOK page total), st))
  /\ (py_truthy term = false ->
      (exists row page,
          new_row db body (next_id st) = Some row
          /\ serve (create_and_search_question db r) st
             = (Success (CreatedOK (next_id st) page (S (length (questions st)))),
                with_question row st))
      \/ (new_row db body (next_id st) = None
          /\ serve (create_and_search_question db r) st = (unprocessable, st))).
Proof.
  intros Hbody term. split.
  - intros Htruthy. subst term.
    destruct (body !! "searchTerm") as [t|] eqn:Hterm; [|discriminate].
    eexists _, _. by apply (create_and_search_question_search db r st body t).
  - intros Hfalsy.
    rewrite (create_and_search_question_create db r st body Hbody Hfalsy).
    rewrite creation_run.
    destruct (new_row db body (next_id st)) as [row|]; [left|right; by split].
    by eexists _, _.
Qed.

Lemma create_and_search_question_dispatch_witness :
  exists row page,
    new_row plain_backend
      (<["question" := PAtom (AStr "Q")]>
         (<["answer" := PAtom (AStr "A")]>
            (<["difficulty" := PAtom (AInt 2)]>
               (<["category" := PAtom (AInt 1)]> ∅)))) 13 = Some row
    /\ serve (create_and_search_question plain_backend sample_creation) science_store
       = (Success (CreatedOK 13 page 13), with_question row science_store).
Proof.
  destruct (proj2 (create_and_search_question_dispatch plain_backend sample_creation
                     science_store _ eq_refl) eq_refl)
    as [Hdone|[Hnone _]]; [exact Hdone|].
  vm_compute in Hnone. discriminate.
Defined.
